(** * CloudWatch alarm notifier: the SNS-to-Slack handler of [main.go]

    A shallow embedding of [HandleRequest] and of the package state set up
    by [init], followed by the properties of the handler: one attachment
    per SNS record, the colour classification, the chunking of the
    attachments into Slack payloads, and the handling of decode and
    submission failures.

    Conventions.
    - Go's [int] is a 64-bit two's-complement integer: it is a [Z] and
      every addition is wrapped explicitly ([GoInt.add]).
    - A slice is a [list]; the slice expression [s[lo:hi]] is
      [GoSlice.slice], which answers [None] where Go panics.
    - The collaborators that live outside the repository are the
      classes [Platform] (the process environment, the wall clock,
      [encoding/json]'s decoder, the formatting of a [float32]) and
      [SlackAPI] (the Slack client). Every property is proved for all
      their instances, that is for whatever the decoder stores or
      reports and whatever the client answers. A call to a collaborator
      is taken to return.
    - The [for] loop over the chunks is not structurally recursive; it
      takes fuel and answers [OutOfFuel] when it runs dry.
    - The index of that loop is an [int]. The properties of the loop
      assume [len(slackAttachments) + 100 <= maxInt], so that the index
      does not wrap around; a slice of Go holds far fewer elements than
      that. *)

From Stdlib Require Import ZArith List String Ascii Bool Lia.
From Stdlib Require Import DecimalString SpecFloat.
Import ListNotations.

Local Open Scope string_scope.
Local Open Scope list_scope.
Local Open Scope Z_scope.

(** ** Go's [int] *)

Module GoInt.

Definition maxInt : Z := 2 ^ 63 - 1.
Definition minInt : Z := - 2 ^ 63.

(** Two's-complement reduction into [minInt .. maxInt]. *)
Definition wrap (z : Z) : Z := (z + 2 ^ 63) mod 2 ^ 64 - 2 ^ 63.

(** [x + y] on [int]. *)
Definition add (x y : Z) : Z := wrap (x + y).

(** [fmt.Sprintf("%v", n)] for an [int]: the decimal digits, with a
    leading minus sign for a negative number. *)
Definition Sprintf_v (n : Z) : string := NilZero.string_of_int (Z.to_int n).

End GoInt.

(** ** Slices *)

Module GoSlice.

(** [len(s)]. *)
Definition len {A : Type} (s : list A) : Z := Z.of_nat (List.length s).

(** [s[lo:hi]].  Go panics unless [0 <= lo <= hi <= cap(s)]; the model
    checks against [len(s)], which never exceeds [cap(s)], so a slice
    expression the model accepts is accepted by Go and reads only
    elements of [s]. *)
Definition slice {A : Type} (s : list A) (lo hi : Z) : option (list A) :=
  if (0 <=? lo) && (lo <=? hi) && (hi <=? len s)
  then Some (firstn (Z.to_nat (hi - lo)) (skipn (Z.to_nat lo) s))
  else None.

End GoSlice.

Import GoInt GoSlice.

(** ** Data *)

(** A Go [error] value, identified with its message. *)
Definition GoError : Type := string.

(** [float32]: a binary floating-point datum. Only its zero value and its
    printed form matter to the handler. *)
Definition float32 : Type := spec_float.
Definition float32_zero : float32 := S754_zero false.

(** [CloudWatchAlarmEventTrigger] *)
Record CloudWatchAlarmEventTrigger : Type := {
  Period : Z;
  EvaluationPeriods : Z;
  ComparisonOperator : string;
  Threshold : float32
}.

(** [CloudWatchAlarmEvent] *)
Record CloudWatchAlarmEvent : Type := {
  AlarmName : string;
  AlarmDescription : string;
  AWSAccountID : string;
  NewStateValue : string;
  NewStateReason : string;
  StateChangeTime : string;
  Region : string;
  OldStateValue : string;
  Trigger : CloudWatchAlarmEventTrigger
}.

(** The composite literal [CloudWatchAlarmEvent{}]: every field at its
    zero value. *)
Definition CloudWatchAlarmEvent_zero : CloudWatchAlarmEvent :=
  {| AlarmName := ""; AlarmDescription := ""; AWSAccountID := "";
     NewStateValue := ""; NewStateReason := ""; StateChangeTime := "";
     Region := ""; OldStateValue := "";
     Trigger := {| Period := 0; EvaluationPeriods := 0;
                   ComparisonOperator := ""; Threshold := float32_zero |} |}.

(** The fields of [events.SNSEvent] the handler reads. *)
Record SNSEntity : Type := { Message : string; Subject : string }.
Record SNSEventRecord : Type := { SNS : SNSEntity }.
Record SNSEvent : Type := { Records : list SNSEventRecord }.

(** [slack.AttachmentField], [slack.Attachment] and [slack.Payload], with
    the fields the handler sets. *)
Record AttachmentField : Type := {
  FieldTitle : string;
  FieldValue : string;
  Short : bool
}.

Record Attachment : Type := {
  Color : string;
  Title : string;
  Text : string;
  Footer : string;
  FooterIcon : string;
  Ts : Z;
  AttachmentFields : list AttachmentField
}.

Record Payload : Type := {
  Channel : string;
  Attachments : list Attachment
}.

(** The package-level variables [init] assigns and the handler reads. *)
Record Globals : Type := {
  slackAttachmentsChunkSize : Z;
  slackMonitorChannel : string
}.

(** How a run of the handler can end. *)
Inductive Outcome (A : Type) : Type :=
| Returned (a : A)
| Panic
| OutOfFuel.

Arguments Returned {A} a.
Arguments Panic {A}.
Arguments OutOfFuel {A}.

(** Lines 97-102: the colour of an attachment, from the new state. *)
Definition colorOf (newStateValue : string) : string :=
  if String.eqb newStateValue "ALARM" then "danger"
  else if String.eqb newStateValue "INSUFFICIENT_DATA" then "warning"
  else "good".

(** [int64(time.Second)] *)
Definition time_Second : Z := 1000000000.

Definition footerIcon : string :=
  "https://d1d05r7k0qlw4w.cloudfront.net/dist-cbe91c5a8477701757ff6752aae4c6f892018972/img/favicon.ico".

(** ** Collaborators

    What the handler calls and the repository does not define. *)

(** The process and the standard library. *)
Class Platform : Type := {
  (** [os.Getenv]: the value of a variable, the empty string when it is
      unset. *)
  Getenv : string -> string;
  (** [time.Now().UnixNano()] at the [k]-th reading of the clock within
      one invocation; the handler reads it once per record. *)
  UnixNano : nat -> Z;
  (** [json.NewDecoder(strings.NewReader(body)).Decode(&v)]: the value
      behind the pointer afterwards, and the error returned. *)
  Decode : string -> CloudWatchAlarmEvent -> CloudWatchAlarmEvent * option GoError;
  (** [fmt.Sprintf("%v", x)] for a [float32]. *)
  Sprintf_v_float32 : float32 -> string
}.

(** The Slack client: [Send] answers a response and an error, and may
    change the client's own state (connections, the remote end), so that
    two calls with one payload may differ. *)
Class SlackAPI : Type := {
  Response : Type;
  Client : Type;
  Send : Client -> Payload -> (Response * option GoError) * Client
}.

Section Handler.

Context {platform : Platform} {slack : SlackAPI}.

(** What an invocation does to the outside, in the order it happens. *)
Inductive Effect : Type :=
| SlackSend (payload : Payload)
| ErrorPrintln (err : GoError)
| InfoPrintln (resp : Response)
| WarningPrintln (line : string).

Record World : Type := {
  slackClient : Client;
  trace : list Effect
}.

Definition emit (e : Effect) (w : World) : World :=
  {| slackClient := slackClient w; trace := trace w ++ [e] |}.

(** Lines 66-83: [init]. *)
Definition init : Globals :=
  {| slackAttachmentsChunkSize := 100;
     slackMonitorChannel := Getenv "SLACK_MONITOR_CHANNEL" |}.

(** Lines 94-95: a fresh zero event, decoded into; the error that
    [Decode] returns is dropped. *)
Definition decodeAlarm (eventRecord : SNSEventRecord) : CloudWatchAlarmEvent :=
  fst (Decode (Message (SNS eventRecord)) CloudWatchAlarmEvent_zero).

(** Lines 111-142. *)
Definition attachmentFields (cloudWatchAlarmEvent : CloudWatchAlarmEvent)
  : list AttachmentField :=
  [ {| FieldTitle := "AccountID";
       FieldValue := AWSAccountID cloudWatchAlarmEvent;
       Short := true |};
    {| FieldTitle := "Region";
       FieldValue := Region cloudWatchAlarmEvent;
       Short := true |};
    {| FieldTitle := "Period";
       FieldValue := Sprintf_v (Period (Trigger cloudWatchAlarmEvent));
       Short := true |};
    {| FieldTitle := "Threshold";
       FieldValue := Sprintf_v_float32 (Threshold (Trigger cloudWatchAlarmEvent));
       Short := true |};
    {| FieldTitle := "Evaluated Periods";
       FieldValue := Sprintf_v (EvaluationPeriods (Trigger cloudWatchAlarmEvent));
       Short := true |};
    {| FieldTitle := "Comparison Operator";
       FieldValue := ComparisonOperator (Trigger cloudWatchAlarmEvent);
       Short := true |} ].

(** Lines 94-143: the body of the first loop for the [k]-th record. *)
Definition slackAttachment (k : nat) (eventRecord : SNSEventRecord) : Attachment :=
  let cloudWatchAlarmEvent := decodeAlarm eventRecord in
  let color := colorOf (NewStateValue cloudWatchAlarmEvent) in
  {| Color := color;
     Title := Subject (SNS eventRecord);
     Text := NewStateReason cloudWatchAlarmEvent;
     Footer := Getenv "AWS_LAMBDA_FUNCTION_NAME";
     FooterIcon := footerIcon;
     Ts := Z.quot (UnixNano k) time_Second;
     AttachmentFields := attachmentFields cloudWatchAlarmEvent |}.

(** Lines 93-145: the loop over [event.Records], from the [k]-th record
    on, appending to [slackAttachments]. *)
Fixpoint rangeRecords (k : nat) (records : list SNSEventRecord)
         (slackAttachments : list Attachment) : list Attachment :=
  match records with
  | [] => slackAttachments
  | eventRecord :: rest =>
      rangeRecords (S k) rest (slackAttachments ++ [slackAttachment k eventRecord])
  end.

(** Lines 91-145. *)
Definition buildSlackAttachments (event : SNSEvent) : list Attachment :=
  rangeRecords 0 (Records event) [].

(** Lines 151-154: the upper bound of the chunk that starts at [i]. *)
Definition chunkEnd (g : Globals) (slackAttachments : list Attachment) (i : Z) : Z :=
  let end_ := add i (slackAttachmentsChunkSize g) in
  if end_ >? len slackAttachments then len slackAttachments else end_.

(** Lines 157-160. *)
Definition mkPayload (g : Globals) (chunkedSlackAttachments : list Attachment)
  : Payload :=
  {| Channel := slackMonitorChannel g;
     Attachments := chunkedSlackAttachments |}.

(** Lines 161-166: one submission and the log line that follows it. *)
Definition submit (w : World) (payload : Payload) : World :=
  let '((resp, err), client') := Send (slackClient w) payload in
  let line := match err with
              | Some e => ErrorPrintln e
              | None => InfoPrintln resp
              end in
  {| slackClient := client'; trace := trace w ++ [SlackSend payload; line] |}.

(** Lines 150-167: the loop over the chunks, entered with index [i].
    One unit of fuel is spent on each test of the loop condition. *)
Fixpoint sendChunks (fuel : nat) (g : Globals) (slackAttachments : list Attachment)
         (i : Z) (w : World) : Outcome unit * World :=
  match fuel with
  | O => (OutOfFuel, w)
  | S fuel' =>
      if i <? len slackAttachments then
        let end_ := chunkEnd g slackAttachments i in
        match slice slackAttachments i end_ with
        | None => (Panic, w)
        | Some chunkedSlackAttachments =>
            let payload := mkPayload g chunkedSlackAttachments in
            sendChunks fuel' g slackAttachments
                       (add i (slackAttachmentsChunkSize g)) (submit w payload)
        end
      else (Returned tt, w)
  end.

(** Lines 90-171: [HandleRequest].  The context argument is unused by
    the handler and is left out; the result is the returned [error]
    ([None] for [nil]). *)
Definition HandleRequest (fuel : nat) (g : Globals) (event : SNSEvent) (w : World)
  : Outcome (option GoError) * World :=
  let slackAttachments := buildSlackAttachments event in
  if negb (len slackAttachments =? 0) then
    match sendChunks fuel g slackAttachments 0 w with
    | (Returned _, w') => (Returned None, w')
    | (Panic, w') => (Panic, w')
    | (OutOfFuel, w') => (OutOfFuel, w')
    end
  else (Returned None, emit (WarningPrintln "No Slack Sent") w).

(** *** Reading a trace *)

(** The payloads submitted, in order. *)
Fixpoint submissions (t : list Effect) : list Payload :=
  match t with
  | [] => []
  | SlackSend p :: t' => p :: submissions t'
  | _ :: t' => submissions t'
  end.

(** The lines written to the warning logger, in order. *)
Fixpoint warnings (t : list Effect) : list string :=
  match t with
  | [] => []
  | WarningPrintln s :: t' => s :: warnings t'
  | _ :: t' => warnings t'
  end.

(** The number of chunks of [n] attachments: [ceil(n / 100)]. *)
Definition chunkCount (n : nat) : nat := Nat.div (n + 99) 100.

(** The [j]-th run of at most 100 consecutive attachments. *)
Definition chunkAt (slackAttachments : list Attachment) (j : nat) : list Attachment :=
  firstn 100 (skipn (100 * j) slackAttachments).

(** The indices the loop of lines 150-167 takes: it starts at [0] and,
    while the condition holds, steps by the chunk size. *)
Inductive LoopIndex (g : Globals) (slackAttachments : list Attachment) : Z -> Prop :=
| LoopIndex_start : LoopIndex g slackAttachments 0
| LoopIndex_step : forall i,
    LoopIndex g slackAttachments i ->
    i < len slackAttachments ->
    LoopIndex g slackAttachments (add i (slackAttachmentsChunkSize g)).

(** *** Reference readings of the second loop

    Used to state what the loop of lines 150-167 does. *)

(** The log line that follows a submission: the error when there is one,
    the response otherwise (lines 162-166). *)
Definition logLine (result : Response * option GoError) : Effect :=
  match snd result with
  | Some e => ErrorPrintln e
  | None => InfoPrintln (fst result)
  end.

(** What [Send] answers to each of [payloads], called on them in turn from
    the client state [c]. *)
Fixpoint answers (c : Client) (payloads : list Payload)
  : list (Response * option GoError) :=
  match payloads with
  | [] => []
  | p :: rest => fst (Send c p) :: answers (snd (Send c p)) rest
  end.

(** The payloads of the chunks [k], ..., [k + m - 1]. *)
Definition chunkPayloads (slackAttachments : list Attachment) (k m : nat)
  : list Payload :=
  map (fun j => mkPayload init (chunkAt slackAttachments j)) (seq k m).

(** The world after submitting the chunks [k], ..., [k + m - 1] in turn. *)
Definition submitChunks (slackAttachments : list Attachment) (k m : nat)
           (w : World) : World :=
  fold_left submit (chunkPayloads slackAttachments k m) w.

End Handler.

(** ** A test double for each collaborator

    Concrete collaborators on which the handler can be run: a process
    environment with two variables set, a clock that advances by one
    second per reading, a decoder that accepts exactly the bodies
    [{"NewStateValue":"<state>"}] and rejects every other body without
    touching its target, and a Slack client whose first call fails and
    whose later calls succeed. *)

Module Demo.

Definition dq : string := String (ascii_of_nat 34) EmptyString.

Definition jsonHead : string :=
  String.append "{" (String.append dq (String.append "NewStateValue"
    (String.append dq (String.append ":" dq)))).

Definition jsonTail : string := String.append dq "}".

(** The body [{"NewStateValue":"<state>"}]. *)
Definition body (state : string) : string :=
  String.append jsonHead (String.append state jsonTail).

Definition withNewStateValue (s : string) (v : CloudWatchAlarmEvent)
  : CloudWatchAlarmEvent :=
  {| AlarmName := AlarmName v; AlarmDescription := AlarmDescription v;
     AWSAccountID := AWSAccountID v; NewStateValue := s;
     NewStateReason := NewStateReason v; StateChangeTime := StateChangeTime v;
     Region := Region v; OldStateValue := OldStateValue v;
     Trigger := Trigger v |}.

Definition decode (msg : string) (v : CloudWatchAlarmEvent)
  : CloudWatchAlarmEvent * option GoError :=
  let n := String.length msg in
  let h := String.length jsonHead in
  let t := String.length jsonTail in
  if prefix jsonHead msg && (h + t <=? n)%nat
     && String.eqb (substring (n - t) t msg) jsonTail
  then (withNewStateValue (substring h (n - h - t) msg) v, None)
  else (v, Some "invalid character looking for beginning of value").

Definition getenv (name : string) : string :=
  if String.eqb name "SLACK_MONITOR_CHANNEL" then "#alarms"
  else if String.eqb name "AWS_LAMBDA_FUNCTION_NAME" then "alarm-notifier"
  else "".

#[export] Instance platform : Platform :=
  {| Getenv := getenv;
     UnixNano := fun k => (1540000000 + Z.of_nat k) * time_Second;
     Decode := decode;
     Sprintf_v_float32 := fun _ => "0" |}.

(** The client's state is the number of calls made so far. *)
#[export] Instance slack : SlackAPI :=
  {| Response := string;
     Client := nat;
     Send := fun calls _ =>
       match calls with
       | O => (("", Some "slack: 500 Internal Server Error"), S calls)
       | S _ => (("ok", None), S calls)
       end |}.

Definition record (subject state : string) : SNSEventRecord :=
  {| SNS := {| Message := body state; Subject := subject |} |}.

(** A record whose body is not JSON. *)
Definition malformed : SNSEventRecord :=
  {| SNS := {| Message := "<html>"; Subject := "broken" |} |}.

Definition alarms (n : nat) : SNSEvent :=
  {| Records := repeat (record "cpu" "ALARM") n |}.

Definition world0 : World := {| slackClient := O; trace := [] |}.

End Demo.

(** ** The loggers of [init]

    Lines 68-78: three loggers, each a destination, a prefix and the
    flags of the [log] package. *)

(** [os.Stdout] and [os.Stderr]. *)
Inductive File : Type := Stdout | Stderr.

(** The flags of the [log] package that [init] combines:
    [Ldate = 1 << 0], [Ltime = 1 << 1], [Lshortfile = 1 << 4]. *)
Definition Ldate : Z := Z.shiftl 1 0.
Definition Ltime : Z := Z.shiftl 1 1.
Definition Lshortfile : Z := Z.shiftl 1 4.

(** What [log.New(out, prefix, flag)] keeps. *)
Record Logger : Type := {
  out : File;
  prefix : string;
  flag : Z
}.

(** Lines 68-70. *)
Definition Info : Logger :=
  {| out := Stdout; prefix := "[INFO]: ";
     flag := Z.lor (Z.lor Ldate Ltime) Lshortfile |}.

(** Lines 72-74. *)
Definition Warning : Logger :=
  {| out := Stdout; prefix := "[WARNING]: ";
     flag := Z.lor (Z.lor Ldate Ltime) Lshortfile |}.

(** Lines 76-78. *)
Definition Error : Logger :=
  {| out := Stderr; prefix := "[ERROR]: ";
     flag := Z.lor (Z.lor Ldate Ltime) Lshortfile |}.

Definition File_eqb (f f' : File) : bool :=
  match f, f' with
  | Stdout, Stdout | Stderr, Stderr => true
  | _, _ => false
  end.

Section Coverage.

Context {platform : Platform} {slack : SlackAPI}.

(** The logger an effect of the handler goes through: [Error.Println] at
    line 163, [Info.Println] at line 165, [Warning.Println] at line 169;
    a submission goes through none. *)
Definition loggerOf (e : Effect) : option Logger :=
  match e with
  | SlackSend _ => None
  | ErrorPrintln _ => Some Error
  | InfoPrintln _ => Some Info
  | WarningPrintln _ => Some Warning
  end.

(** The log lines of a trace that are written to [f], in order. *)
Definition writtenTo (f : File) (t : list Effect) : list Effect :=
  filter (fun e => match loggerOf e with
                   | Some l => File_eqb (out l) f
                   | None => false
                   end) t.

(** The errors among the answers of [Send], in order. *)
Definition failures (results : list (Response * option GoError)) : list GoError :=
  flat_map (fun r => match snd r with Some e => [e] | None => [] end) results.

(** The responses of the answers of [Send] that carry no error, in order. *)
Definition successes (results : list (Response * option GoError)) : list Response :=
  flat_map (fun r => match snd r with Some _ => [] | None => [fst r] end) results.

(** The chunks for any chunk size [c]: their number, [ceil(n / c)], and
    the [j]-th of them. *)
Definition chunkCountOf (c n : nat) : nat := Nat.div (n + c - 1) c.

Definition chunkOf (c : nat) (slackAttachments : list Attachment) (j : nat)
  : list Attachment :=
  firstn c (skipn (c * j) slackAttachments).

End Coverage.

(** ** JSON texts and a stream decoder

    [encoding/json] is not part of the repository. [JSON] recognises the
    grammar of RFC 8259, which is what [json.Valid] accepts; [Stream] is a
    decoder on which the handler can be run and which reads its input as
    [json.Decoder] does: it takes the first complete JSON value of the
    body and never looks at what follows it. *)

Module JSON.

Definition code (c : ascii) : nat := nat_of_ascii c.

(** Space, tab, line feed, carriage return. *)
Definition isWs (c : ascii) : bool :=
  ((code c =? 32) || (code c =? 9) || (code c =? 10) || (code c =? 13))%nat.

Definition isDigit (c : ascii) : bool :=
  ((48 <=? code c) && (code c <=? 57))%nat.

Definition isHex (c : ascii) : bool :=
  (isDigit c
   || ((65 <=? code c) && (code c <=? 70))
   || ((97 <=? code c) && (code c <=? 102)))%nat.

(** The characters that may follow a backslash, [u] apart: the quote, the
    backslash, the slash, [b], [f], [n], [r], [t]. *)
Definition isEscape (c : ascii) : bool :=
  existsb (Nat.eqb (code c)) [34; 92; 47; 98; 102; 110; 114; 116]%nat.

Fixpoint skipWs (s : string) : string :=
  match s with
  | String c rest => if isWs c then skipWs rest else s
  | EmptyString => s
  end.

Fixpoint skipDigits (s : string) : string :=
  match s with
  | String c rest => if isDigit c then skipDigits rest else s
  | EmptyString => s
  end.

(** What follows [p] in [s], when [s] starts with [p]. *)
Fixpoint dropPrefix (p s : string) : option string :=
  match p, s with
  | EmptyString, _ => Some s
  | String a p', String b s' => if Ascii.eqb a b then dropPrefix p' s' else None
  | String _ _, EmptyString => None
  end.

(** The characters of a string, after its opening quote: what follows the
    closing quote. *)
Fixpoint scanChars (s : string) : option string :=
  match s with
  | EmptyString => None
  | String c rest =>
      if (code c =? 34)%nat then Some rest
      else if (code c =? 92)%nat then
        match rest with
        | String e rest' =>
            if isEscape e then scanChars rest'
            else if (code e =? 117)%nat then
              match rest' with
              | String h1 (String h2 (String h3 (String h4 rest''))) =>
                  if isHex h1 && isHex h2 && isHex h3 && isHex h4
                  then scanChars rest'' else None
              | _ => None
              end
            else None
        | EmptyString => None
        end
      else if (code c <? 32)%nat then None
      else scanChars rest
  end.

Definition scanString (s : string) : option string :=
  match s with
  | String c rest => if (code c =? 34)%nat then scanChars rest else None
  | EmptyString => None
  end.

(** One digit or more. *)
Definition scanDigits (s : string) : option string :=
  match s with
  | String c rest => if isDigit c then Some (skipDigits rest) else None
  | EmptyString => None
  end.

(** [0], or a digit from 1 to 9 and any digits. *)
Definition scanInt (s : string) : option string :=
  match s with
  | String c rest =>
      if (code c =? 48)%nat then Some rest
      else if isDigit c then Some (skipDigits rest) else None
  | EmptyString => None
  end.

Definition scanFrac (s : string) : option string :=
  match s with
  | String c rest => if (code c =? 46)%nat then scanDigits rest else Some s
  | EmptyString => Some s
  end.

Definition scanExp (s : string) : option string :=
  match s with
  | String c rest =>
      if ((code c =? 101) || (code c =? 69))%nat then
        match rest with
        | String sign rest' =>
            if ((code sign =? 43) || (code sign =? 45))%nat
            then scanDigits rest' else scanDigits rest
        | EmptyString => None
        end
      else Some s
  | EmptyString => Some s
  end.

Definition scanNumber (s : string) : option string :=
  let unsigned :=
    match s with
    | String c rest => if (code c =? 45)%nat then rest else s
    | EmptyString => s
    end in
  match scanInt unsigned with
  | Some afterInt =>
      match scanFrac afterInt with
      | Some afterFrac => scanExp afterFrac
      | None => None
      end
  | None => None
  end.

(** A value at the head of [s]: what follows it. [scanMembers] and
    [scanElements] start at a member or an element and go to the closing
    brace or bracket. Every call spends one unit of fuel, and at least one
    character is read between two calls. *)
Fixpoint scanValue (fuel : nat) (s : string) : option string :=
  match fuel with
  | O => None
  | S fuel' =>
      match s with
      | EmptyString => None
      | String c rest =>
          if (code c =? 123)%nat then
            match skipWs rest with
            | String d rest' =>
                if (code d =? 125)%nat then Some rest'
                else scanMembers fuel' (skipWs rest)
            | EmptyString => None
            end
          else if (code c =? 91)%nat then
            match skipWs rest with
            | String d rest' =>
                if (code d =? 93)%nat then Some rest'
                else scanElements fuel' (skipWs rest)
            | EmptyString => None
            end
          else if (code c =? 34)%nat then scanChars rest
          else if ((code c =? 45) || isDigit c)%nat then scanNumber s
          else
            match dropPrefix "true" s with
            | Some r => Some r
            | None =>
                match dropPrefix "false" s with
                | Some r => Some r
                | None => dropPrefix "null" s
                end
            end
      end
  end
with scanMembers (fuel : nat) (s : string) : option string :=
  match fuel with
  | O => None
  | S fuel' =>
      match scanString s with
      | Some afterKey =>
          match skipWs afterKey with
          | String c rest =>
              if (code c =? 58)%nat then
                match scanValue fuel' (skipWs rest) with
                | Some afterValue =>
                    match skipWs afterValue with
                    | String d rest' =>
                        if (code d =? 44)%nat then scanMembers fuel' (skipWs rest')
                        else if (code d =? 125)%nat then Some rest'
                        else None
                    | EmptyString => None
                    end
                | None => None
                end
              else None
          | EmptyString => None
          end
      | None => None
      end
  end
with scanElements (fuel : nat) (s : string) : option string :=
  match fuel with
  | O => None
  | S fuel' =>
      match scanValue fuel' s with
      | Some afterValue =>
          match skipWs afterValue with
          | String d rest' =>
              if (code d =? 44)%nat then scanElements fuel' (skipWs rest')
              else if (code d =? 93)%nat then Some rest'
              else None
          | EmptyString => None
          end
      | None => None
      end
  end.

(** Fuel that is enough for [s]: each call reads a character. *)
Definition fuelFor (s : string) : nat := 2 * String.length s + 2.

(** The first value of [s], as the text of the value and what follows
    it; [None] when [s] does not start, after white space, with a
    complete value. *)
Definition readValue (s : string) : option (string * string) :=
  let s' := skipWs s in
  match scanValue (fuelFor s') s' with
  | Some rest =>
      Some (substring 0 (String.length s' - String.length rest) s', rest)
  | None => None
  end.

(** A JSON text: one value, with white space around it and nothing
    else. *)
Definition Valid (s : string) : bool :=
  match readValue s with
  | Some (_, rest) =>
      match skipWs rest with
      | EmptyString => true
      | String _ _ => false
      end
  | None => false
  end.

End JSON.

Module Stream.

(** The body is read up to the end of its first value; a body without
    one is rejected and nothing is stored. Of the values it reads, this
    decoder stores the objects of the one member [NewStateValue]; it
    stores nothing of any other value. *)
Definition decode (msg : string) (v : CloudWatchAlarmEvent)
  : CloudWatchAlarmEvent * option GoError :=
  match JSON.readValue msg with
  | Some (value, _) => (fst (Demo.decode value v), None)
  | None => (v, Some "invalid character looking for beginning of value")
  end.

Definition platform : Platform :=
  {| Getenv := Demo.getenv;
     UnixNano := fun k => (1540000000 + Z.of_nat k) * time_Second;
     Decode := decode;
     Sprintf_v_float32 := fun _ => "0" |}.

(** A well-formed body followed by text that is no JSON. *)
Definition junkBody : string :=
  String.append (Demo.body "ALARM") " trailing <junk".

Definition junkRecord : SNSEventRecord :=
  {| SNS := {| Message := junkBody; Subject := "cpu" |} |}.

End Stream.

(** * Properties *)

(** ** Arithmetic of [int] and of the chunk count *)

Lemma wrap_in_range (z : Z) : minInt <= z <= maxInt -> wrap z = z.
Proof.
  unfold wrap, minInt, maxInt. intros Hz.
  rewrite Z.mod_small; lia.
Qed.

Lemma add_no_overflow (x y : Z) :
  minInt <= x + y <= maxInt -> add x y = x + y.
Proof. apply wrap_in_range. Qed.

Lemma chunkCount_bounds (n : nat) :
  (n <= 100 * chunkCount n < n + 100)%nat.
Proof.
  unfold chunkCount.
  pose proof (Nat.div_mod_eq (n + 99) 100) as Hdiv.
  pose proof (Nat.mod_upper_bound (n + 99) 100 ltac:(discriminate)) as Hmod.
  lia.
Qed.

Lemma chunkCount_zero : chunkCount 0 = 0%nat.
Proof. reflexivity. Qed.

Lemma chunkCount_pos (n : nat) : (0 < n)%nat -> (0 < chunkCount n)%nat.
Proof. pose proof (chunkCount_bounds n). lia. Qed.

Lemma before_last_chunk (n j : nat) :
  (S j < chunkCount n)%nat -> (100 * j + 100 < n)%nat.
Proof. pose proof (chunkCount_bounds n). lia. Qed.

Lemma within_chunkCount (n j : nat) :
  (j < chunkCount n)%nat <-> (100 * j < n)%nat.
Proof. pose proof (chunkCount_bounds n). lia. Qed.

(** ** Lists *)

Lemma firstn_plus {A : Type} (a b : nat) (l : list A) :
  firstn (a + b) l = firstn a l ++ firstn b (skipn a l).
Proof.
  revert l. induction a as [|a IH]; intros l; simpl.
  - reflexivity.
  - destruct l as [|x l]; simpl.
    + now rewrite firstn_nil.
    + now rewrite IH.
Qed.

Section ChunkFacts.

Variable slackAttachments : list Attachment.

Lemma chunkAt_length (j : nat) :
  List.length (chunkAt slackAttachments j)
  = Nat.min 100 (List.length slackAttachments - 100 * j).
Proof. unfold chunkAt. now rewrite length_firstn, length_skipn. Qed.

Lemma chunkAt_nth (j r : nat) :
  (r < 100)%nat ->
  nth_error (chunkAt slackAttachments j) r
  = nth_error slackAttachments (100 * j + r).
Proof.
  intros Hr. unfold chunkAt.
  rewrite nth_error_firstn.
  destruct (Nat.ltb_spec r 100) as [_|Hge]; [|lia].
  apply nth_error_skipn.
Qed.

Lemma concat_chunks (m k : nat) :
  List.concat (map (chunkAt slackAttachments) (seq k m))
  = firstn (100 * m) (skipn (100 * k) slackAttachments).
Proof.
  revert k. induction m as [|m IH]; intros k.
  - reflexivity.
  - cbn [seq map List.concat]. rewrite IH.
    replace (100 * S m)%nat with (100 + 100 * m)%nat by lia.
    rewrite firstn_plus, skipn_skipn.
    replace (100 + 100 * k)%nat with (100 * S k)%nat by lia.
    reflexivity.
Qed.

Lemma concat_all_chunks :
  List.concat (map (chunkAt slackAttachments)
              (seq 0 (chunkCount (List.length slackAttachments))))
  = slackAttachments.
Proof.
  rewrite concat_chunks. cbn [Nat.mul skipn].
  apply firstn_all2.
  pose proof (chunkCount_bounds (List.length slackAttachments)). lia.
Qed.

Lemma chunks_nth (j : nat) :
  nth_error (map (chunkAt slackAttachments)
                 (seq 0 (chunkCount (List.length slackAttachments)))) j
  = if (j <? chunkCount (List.length slackAttachments))%nat
    then Some (chunkAt slackAttachments j) else None.
Proof.
  rewrite nth_error_map, nth_error_seq.
  now destruct (j <? _)%nat.
Qed.

Lemma chunks_lookup (j : nat) (g : list Attachment) :
  nth_error (map (chunkAt slackAttachments)
                 (seq 0 (chunkCount (List.length slackAttachments)))) j
  = Some g ->
  (100 * j < List.length slackAttachments)%nat
  /\ g = chunkAt slackAttachments j.
Proof.
  rewrite chunks_nth.
  destruct (Nat.ltb_spec j (chunkCount (List.length slackAttachments)))
    as [Hj|_]; [|discriminate].
  intros [= <-]. split; [now apply within_chunkCount | reflexivity].
Qed.

End ChunkFacts.

Section HandlerFacts.

Context {platform : Platform} {slack : SlackAPI}.

(** ** The loop over the records *)

Lemma rangeRecords_acc (k : nat) (records : list SNSEventRecord)
      (acc : list Attachment) :
  rangeRecords k records acc = acc ++ rangeRecords k records [].
Proof.
  revert k acc. induction records as [|r rest IH]; intros k acc; simpl.
  - now rewrite app_nil_r.
  - rewrite (IH (S k) (acc ++ [_])), (IH (S k) [_]).
    now rewrite <- app_assoc.
Qed.

Lemma rangeRecords_cons (k : nat) (r : SNSEventRecord)
      (rest : list SNSEventRecord) :
  rangeRecords k (r :: rest) []
  = slackAttachment k r :: rangeRecords (S k) rest [].
Proof. simpl. now rewrite rangeRecords_acc. Qed.

Lemma rangeRecords_length (k : nat) (records : list SNSEventRecord) :
  List.length (rangeRecords k records []) = List.length records.
Proof.
  revert k. induction records as [|r rest IH]; intros k.
  - reflexivity.
  - rewrite rangeRecords_cons. simpl. now rewrite IH.
Qed.

Lemma rangeRecords_nth (k : nat) (records : list SNSEventRecord) (i : nat) :
  nth_error (rangeRecords k records []) i
  = option_map (slackAttachment (k + i)) (nth_error records i).
Proof.
  revert k i. induction records as [|r rest IH]; intros k i.
  - now destruct i.
  - rewrite rangeRecords_cons. destruct i as [|i]; simpl.
    + now rewrite Nat.add_0_r.
    + rewrite IH. now rewrite Nat.add_succ_r.
Qed.

Lemma rangeRecords_map_Title (k : nat) (records : list SNSEventRecord) :
  map Title (rangeRecords k records [])
  = map (fun r => Subject (SNS r)) records.
Proof.
  revert k. induction records as [|r rest IH]; intros k.
  - reflexivity.
  - rewrite rangeRecords_cons. simpl. now rewrite IH.
Qed.

Lemma buildSlackAttachments_length (event : SNSEvent) :
  List.length (buildSlackAttachments event) = List.length (Records event).
Proof. apply rangeRecords_length. Qed.

Lemma buildSlackAttachments_nth (event : SNSEvent) (i : nat) :
  nth_error (buildSlackAttachments event) i
  = option_map (slackAttachment i) (nth_error (Records event) i).
Proof. unfold buildSlackAttachments. now rewrite rangeRecords_nth. Qed.

(** ** Traces *)

Lemma submissions_app (t1 t2 : list Effect) :
  submissions (t1 ++ t2) = submissions t1 ++ submissions t2.
Proof.
  induction t1 as [|e t1 IH]; simpl.
  - reflexivity.
  - destruct e; simpl; now rewrite IH.
Qed.

Lemma warnings_app (t1 t2 : list Effect) :
  warnings (t1 ++ t2) = warnings t1 ++ warnings t2.
Proof.
  induction t1 as [|e t1 IH]; simpl.
  - reflexivity.
  - destruct e; simpl; now rewrite IH.
Qed.

Lemma submit_eq (w : World) (payload : Payload) :
  submit w payload
  = {| slackClient := snd (Send (slackClient w) payload);
       trace := trace w ++ [SlackSend payload;
                            logLine (fst (Send (slackClient w) payload))] |}.
Proof.
  unfold submit, logLine.
  destruct (Send (slackClient w) payload) as [[resp err] client'].
  reflexivity.
Qed.

Lemma submit_submissions (w : World) (payload : Payload) :
  submissions (trace (submit w payload))
  = submissions (trace w) ++ [payload].
Proof.
  rewrite submit_eq. cbn [trace]. rewrite submissions_app.
  unfold logLine. now destruct (snd (fst _)).
Qed.

Lemma submit_warnings (w : World) (payload : Payload) :
  warnings (trace (submit w payload)) = warnings (trace w).
Proof.
  rewrite submit_eq. cbn [trace]. rewrite warnings_app.
  unfold logLine. destruct (snd (fst _)); simpl; apply app_nil_r.
Qed.

Lemma submit_all_submissions (payloads : list Payload) (w : World) :
  submissions (trace (fold_left submit payloads w))
  = submissions (trace w) ++ payloads.
Proof.
  revert w. induction payloads as [|p ps IH]; intros w; simpl.
  - now rewrite app_nil_r.
  - rewrite IH, submit_submissions. now rewrite <- app_assoc.
Qed.

Lemma submit_all_warnings (payloads : list Payload) (w : World) :
  warnings (trace (fold_left submit payloads w)) = warnings (trace w).
Proof.
  revert w. induction payloads as [|p ps IH]; intros w; simpl.
  - reflexivity.
  - now rewrite IH, submit_warnings.
Qed.

(** ** The loop over the chunks *)

(** One iteration: when the condition holds and the slice is taken, the
    chunk is submitted and the loop goes on at the next index. *)
Lemma sendChunks_step (fuel : nat) (g : Globals)
      (slackAttachments chunked : list Attachment) (i : Z) (w : World) :
  i < len slackAttachments ->
  slice slackAttachments i (chunkEnd g slackAttachments i) = Some chunked ->
  sendChunks (S fuel) g slackAttachments i w
  = sendChunks fuel g slackAttachments (add i (slackAttachmentsChunkSize g))
               (submit w (mkPayload g chunked)).
Proof.
  intros Hlt Hslice. cbn [sendChunks].
  destruct (Z.ltb_spec i (len slackAttachments)) as [_|Hge]; [|lia].
  now rewrite Hslice.
Qed.

Section Loop.

Variable slackAttachments : list Attachment.

(** The index arithmetic of the loop stays within [int]. *)
Hypothesis fits :
  len slackAttachments + slackAttachmentsChunkSize init <= maxInt.

Let N : nat := List.length slackAttachments.

Lemma next_index (k : nat) :
  (100 * k < N)%nat ->
  add (Z.of_nat (100 * k)) (slackAttachmentsChunkSize init)
  = Z.of_nat (100 * S k).
Proof.
  intros Hk. cbn [init slackAttachmentsChunkSize] in *.
  rewrite add_no_overflow; unfold len, minInt, maxInt in *; subst N; lia.
Qed.

Lemma chunkEnd_init (k : nat) :
  (100 * k < N)%nat ->
  chunkEnd init slackAttachments (Z.of_nat (100 * k))
  = Z.of_nat (Nat.min (100 * k + 100) N).
Proof.
  intros Hk. unfold chunkEnd. rewrite (next_index k Hk).
  unfold len. fold N.
  destruct (Z.gtb_spec (Z.of_nat (100 * S k)) (Z.of_nat N)); lia.
Qed.

Lemma slice_chunk (k : nat) :
  (100 * k < N)%nat ->
  slice slackAttachments (Z.of_nat (100 * k))
        (chunkEnd init slackAttachments (Z.of_nat (100 * k)))
  = Some (chunkAt slackAttachments k).
Proof.
  intros Hk. rewrite (chunkEnd_init k Hk). unfold slice, len. fold N.
  replace ((0 <=? Z.of_nat (100 * k))
           && (Z.of_nat (100 * k) <=? Z.of_nat (Nat.min (100 * k + 100) N))
           && (Z.of_nat (Nat.min (100 * k + 100) N) <=? Z.of_nat N))
    with true
    by (symmetry; rewrite !andb_true_iff, !Z.leb_le; lia).
  f_equal. unfold chunkAt.
  rewrite Nat2Z.id.
  replace (Z.to_nat (Z.of_nat (Nat.min (100 * k + 100) N) - Z.of_nat (100 * k)))
    with (Nat.min 100 (N - 100 * k)) by lia.
  destruct (Nat.le_ge_cases 100 (N - 100 * k)) as [Hfull|Hlast].
  - now rewrite Nat.min_l.
  - rewrite Nat.min_r by assumption.
    rewrite !firstn_all2; [reflexivity| |];
      rewrite length_skipn; fold N; lia.
Qed.

Lemma sendChunks_run (m k fuel : nat) (w : World) :
  (k + m = chunkCount N)%nat ->
  (m < fuel)%nat ->
  sendChunks fuel init slackAttachments (Z.of_nat (100 * k)) w
  = (Returned tt, submitChunks slackAttachments k m w).
Proof.
  revert k fuel w. induction m as [|m IH]; intros k fuel w Hk Hfuel;
    (destruct fuel as [|fuel]; [lia|]); cbn [sendChunks].
  - assert (Hdone : (N <= 100 * k)%nat)
      by (pose proof (chunkCount_bounds N); lia).
    destruct (Z.ltb_spec (Z.of_nat (100 * k)) (len slackAttachments)) as [Hlt|_].
    + unfold len in Hlt. fold N in Hlt. lia.
    + reflexivity.
  - assert (Hin : (100 * k < N)%nat) by (apply within_chunkCount; lia).
    destruct (Z.ltb_spec (Z.of_nat (100 * k)) (len slackAttachments)) as [_|Hge].
    + rewrite (slice_chunk k Hin), (next_index k Hin).
      rewrite (IH (S k) fuel) by lia.
      reflexivity.
    + unfold len in Hge. fold N in Hge. lia.
Qed.

Lemma sendChunks_starved (fuel k : nat) (w : World) :
  (k + fuel <= chunkCount N)%nat ->
  fst (sendChunks fuel init slackAttachments (Z.of_nat (100 * k)) w) = OutOfFuel.
Proof.
  revert k w. induction fuel as [|fuel IH]; intros k w Hk; cbn [sendChunks].
  - reflexivity.
  - assert (Hin : (100 * k < N)%nat) by (apply within_chunkCount; lia).
    destruct (Z.ltb_spec (Z.of_nat (100 * k)) (len slackAttachments)) as [_|Hge].
    + rewrite (slice_chunk k Hin), (next_index k Hin).
      apply IH. lia.
    + unfold len in Hge. fold N in Hge. lia.
Qed.

Lemma LoopIndex_chunk (i : Z) :
  LoopIndex init slackAttachments i ->
  exists k : nat, i = Z.of_nat (100 * k) /\ (k <= chunkCount N)%nat.
Proof.
  induction 1 as [|i _ [k [-> Hk]] Hlt].
  - exists 0%nat. split; [reflexivity | lia].
  - unfold len in Hlt. fold N in Hlt.
    assert (Hin : (100 * k < N)%nat) by lia.
    exists (S k). split.
    + apply (next_index k Hin).
    + apply within_chunkCount in Hin. lia.
Qed.

End Loop.

(** ** The handler *)

Lemma HandleRequest_empty (fuel : nat) (g : Globals) (event : SNSEvent)
      (w : World) :
  Records event = [] ->
  HandleRequest fuel g event w
  = (Returned None, emit (WarningPrintln "No Slack Sent") w).
Proof.
  intros Hnil. unfold HandleRequest, buildSlackAttachments.
  now rewrite Hnil.
Qed.

Lemma HandleRequest_loop (fuel : nat) (g : Globals) (event : SNSEvent)
      (w : World) :
  Records event <> [] ->
  HandleRequest fuel g event w
  = match sendChunks fuel g (buildSlackAttachments event) 0 w with
    | (Returned _, w') => (Returned None, w')
    | (Panic, w') => (Panic, w')
    | (OutOfFuel, w') => (OutOfFuel, w')
    end.
Proof.
  intros Hne. unfold HandleRequest.
  destruct (Z.eqb_spec (len (buildSlackAttachments event)) 0) as [Hz|_].
  - exfalso. apply Hne.
    unfold len in Hz. rewrite buildSlackAttachments_length in Hz.
    destruct (Records event); [reflexivity | discriminate].
  - reflexivity.
Qed.

Lemma HandleRequest_nonempty (fuel : nat) (event : SNSEvent) (w : World) :
  Records event <> [] ->
  len (buildSlackAttachments event) + slackAttachmentsChunkSize init <= maxInt ->
  (chunkCount (List.length (buildSlackAttachments event)) < fuel)%nat ->
  HandleRequest fuel init event w
  = (Returned None,
     submitChunks (buildSlackAttachments event) 0
                  (chunkCount (List.length (buildSlackAttachments event))) w).
Proof.
  intros Hne Hfit Hfuel. rewrite HandleRequest_loop by assumption.
  change 0 with (Z.of_nat (100 * 0)).
  now rewrite (sendChunks_run _ Hfit _ 0%nat fuel w) by (assumption || reflexivity).
Qed.

(** Enough fuel: the handler returns [nil], and what it has submitted is
    the chunks of the attachments, each once, in order. *)
Lemma HandleRequest_submissions (fuel : nat) (event : SNSEvent) (w : World) :
  len (buildSlackAttachments event) + slackAttachmentsChunkSize init <= maxInt ->
  (chunkCount (List.length (buildSlackAttachments event)) < fuel)%nat ->
  exists w' : World,
    HandleRequest fuel init event w = (Returned None, w')
    /\ submissions (trace w')
       = submissions (trace w)
         ++ chunkPayloads (buildSlackAttachments event) 0
                          (chunkCount (List.length (buildSlackAttachments event))).
Proof.
  intros Hfit Hfuel.
  destruct (Records event) as [|r rest] eqn:Hrec.
  - exists (emit (WarningPrintln "No Slack Sent") w). split.
    + now apply HandleRequest_empty.
    + rewrite buildSlackAttachments_length, Hrec. cbn [List.length].
      rewrite chunkCount_zero. cbn [chunkPayloads seq map emit trace].
      rewrite submissions_app. reflexivity.
  - eexists. split.
    + apply HandleRequest_nonempty; [rewrite Hrec; discriminate | assumption..].
    + unfold submitChunks. apply submit_all_submissions.
Qed.

Lemma submit_all_trace (payloads : list Payload) (w : World) :
  trace (fold_left submit payloads w)
  = trace w
    ++ List.concat
         (map (fun pr => [SlackSend (fst pr); logLine (snd pr)])
              (combine payloads (answers (slackClient w) payloads))).
Proof.
  revert w. induction payloads as [|p ps IH]; intros w.
  - simpl. now rewrite app_nil_r.
  - cbn [fold_left answers combine map List.concat fst snd].
    rewrite IH, submit_eq. cbn [trace slackClient].
    now rewrite <- app_assoc.
Qed.

Lemma answers_length (payloads : list Payload) (c : Client) :
  List.length (answers c payloads) = List.length payloads.
Proof.
  revert c. induction payloads as [|p ps IH]; intros c; simpl.
  - reflexivity.
  - now rewrite IH.
Qed.

(** ** The claims *)

(** C1. Chunking. With the chunk size [init] sets (100), a batch whose
    [N] attachments fit in an [int] is submitted in [ceil(N / 100)]
    groups: the [j]-th group is the run of at most 100 attachments that
    starts at position [100 * j], so every group but the last holds
    exactly 100, a group holds between 1 and 100, the position ranges of
    two groups do not overlap and follow each other in order, and the
    groups concatenated in order are the attachments. *)
Theorem chunks_partition_attachments (event : SNSEvent) (fuel : nat) (w : World) :
  let slackAttachments := buildSlackAttachments event in
  let N := List.length slackAttachments in
  len slackAttachments + slackAttachmentsChunkSize init <= maxInt ->
  (chunkCount N < fuel)%nat ->
  exists (w' : World) (groups : list (list Attachment)),
    HandleRequest fuel init event w = (Returned None, w')
    /\ map Attachments (submissions (trace w'))
       = map Attachments (submissions (trace w)) ++ groups
    /\ List.length groups = chunkCount N
    /\ (N <= 100 * List.length groups < N + 100)%nat
    /\ (forall (j : nat) (g : list Attachment),
          nth_error groups j = Some g ->
          g = firstn 100 (skipn (100 * j) slackAttachments)
          /\ (S j < List.length groups -> List.length g = 100)%nat
          /\ (0 < List.length g <= 100)%nat
          /\ (100 * j + List.length g <= N)%nat
          /\ (forall r : nat, (r < List.length g)%nat ->
                nth_error g r = nth_error slackAttachments (100 * j + r))
          /\ (forall (j' : nat) (g' : list Attachment),
                (j < j')%nat -> nth_error groups j' = Some g' ->
                (100 * j + List.length g <= 100 * j')%nat))
    /\ List.concat groups = slackAttachments.
Proof.
  intros atts N Hfit Hfuel.
  destruct (HandleRequest_submissions fuel event w Hfit Hfuel) as (w' & Hrun & Hsub).
  fold atts in Hsub. fold N in Hsub.
  exists w', (map (chunkAt atts) (seq 0 (chunkCount N))).
  assert (Hlen : List.length (map (chunkAt atts) (seq 0 (chunkCount N)))
                 = chunkCount N)
    by now rewrite length_map, length_seq.
  pose proof (chunkCount_bounds N) as Hcount.
  split; [exact Hrun|].
  split; [rewrite Hsub, map_app; unfold chunkPayloads; now rewrite map_map|].
  split; [exact Hlen|].
  split; [rewrite Hlen; lia|].
  split; [|apply concat_all_chunks].
  intros j g Hg. rewrite Hlen.
  apply chunks_lookup in Hg as [Hj ->]. fold N in Hj.
  rewrite chunkAt_length. fold N.
  split; [reflexivity|].
  split; [intros Hnext; apply before_last_chunk in Hnext; lia|].
  split; [lia|].
  split; [lia|].
  split; [intros r Hr; apply chunkAt_nth; lia|].
  intros j' g' Hjj' _. lia.
Qed.

(** C2. One attachment per record, in the order of the records: a batch
    of [N] records yields [N] attachments, the [i]-th attachment is the
    one built from the [i]-th record (and there is none past the last
    record), so the titles of the attachments are the subjects of the
    records in order. *)
Theorem one_attachment_per_record (event : SNSEvent) :
  List.length (buildSlackAttachments event) = List.length (Records event)
  /\ (forall i : nat,
        nth_error (buildSlackAttachments event) i
        = option_map (slackAttachment i) (nth_error (Records event) i))
  /\ map Title (buildSlackAttachments event)
     = map (fun r => Subject (SNS r)) (Records event).
Proof.
  split; [|split].
  - apply buildSlackAttachments_length.
  - apply buildSlackAttachments_nth.
  - apply rangeRecords_map_Title.
Qed.

(** C3. The colour is a total function of the decoded new state:
    [danger] exactly for [ALARM], [warning] exactly for
    [INSUFFICIENT_DATA], [good] for every other string, the empty string
    and [OK] among them; and it is the colour of the attachment. *)
Theorem color_classification (newStateValue : string) :
  (colorOf newStateValue = "danger" <-> newStateValue = "ALARM")
  /\ (colorOf newStateValue = "warning" <-> newStateValue = "INSUFFICIENT_DATA")
  /\ (colorOf newStateValue = "good"
      <-> newStateValue <> "ALARM" /\ newStateValue <> "INSUFFICIENT_DATA")
  /\ colorOf "" = "good"
  /\ colorOf "OK" = "good"
  /\ (forall (k : nat) (eventRecord : SNSEventRecord),
        Color (slackAttachment k eventRecord)
        = colorOf (NewStateValue (decodeAlarm eventRecord))).
Proof.
  unfold colorOf.
  destruct (String.eqb_spec newStateValue "ALARM") as [->|Halarm];
    [|destruct (String.eqb_spec newStateValue "INSUFFICIENT_DATA") as [->|Hins]];
    repeat split; intros; try reflexivity; try discriminate;
    try congruence; try tauto.
Qed.

(** C4. The empty batch: whatever the globals and the fuel, the handler
    returns [nil], calls [Send] not once (no submission is added and the
    client is left as it was) and writes the one line [No Slack Sent] to
    the warning logger. *)
Theorem empty_batch_sends_nothing (fuel : nat) (g : Globals) (w : World) :
  exists w' : World,
    HandleRequest fuel g {| Records := [] |} w = (Returned None, w')
    /\ trace w' = trace w ++ [WarningPrintln "No Slack Sent"]
    /\ submissions (trace w') = submissions (trace w)
    /\ warnings (trace w') = warnings (trace w) ++ ["No Slack Sent"]
    /\ slackClient w' = slackClient w.
Proof.
  exists (emit (WarningPrintln "No Slack Sent") w).
  split; [reflexivity|]. cbn [emit trace slackClient].
  rewrite submissions_app, warnings_app. cbn [submissions warnings].
  now rewrite app_nil_r.
Qed.

Lemma nth_error_middle {A : Type} (pre post : list A) (x : A) :
  nth_error (pre ++ x :: post) (List.length pre) = Some x.
Proof.
  rewrite nth_error_app2 by lia. now rewrite Nat.sub_diag.
Qed.

Lemma nth_error_around {A : Type} (pre post : list A) (x y : A) (j : nat) :
  j <> List.length pre ->
  nth_error (pre ++ x :: post) j = nth_error (pre ++ y :: post) j.
Proof.
  intros Hj. destruct (Nat.lt_ge_cases j (List.length pre)) as [Hlt|Hge].
  - now rewrite !nth_error_app1 by assumption.
  - rewrite !nth_error_app2 by assumption.
    destruct (j - List.length pre)%nat as [|m] eqn:Hm; [lia | reflexivity].
Qed.

(** The attachment of a record from which nothing was decoded. *)
Lemma slackAttachment_undecoded (k : nat) (eventRecord : SNSEventRecord) :
  decodeAlarm eventRecord = CloudWatchAlarmEvent_zero ->
  slackAttachment k eventRecord
  = {| Color := "good";
       Title := Subject (SNS eventRecord);
       Text := "";
       Footer := Getenv "AWS_LAMBDA_FUNCTION_NAME";
       FooterIcon := footerIcon;
       Ts := Z.quot (UnixNano k) time_Second;
       AttachmentFields :=
         [ {| FieldTitle := "AccountID"; FieldValue := ""; Short := true |};
           {| FieldTitle := "Region"; FieldValue := ""; Short := true |};
           {| FieldTitle := "Period"; FieldValue := "0"; Short := true |};
           {| FieldTitle := "Threshold";
              FieldValue := Sprintf_v_float32 float32_zero; Short := true |};
           {| FieldTitle := "Evaluated Periods"; FieldValue := "0"; Short := true |};
           {| FieldTitle := "Comparison Operator"; FieldValue := ""; Short := true |} ] |}.
Proof.
  intros Hzero. unfold slackAttachment. rewrite Hzero. reflexivity.
Qed.

(** C5, as amended. A record whose body the decoder rejects, storing
    nothing (what [json.Decoder] does with a body that holds no complete
    JSON value), does not abort the batch: the batch still yields one
    attachment per record; the attachment of that record carries the zero
    values of the alarm (colour [good], empty text, account, region and
    comparison operator, [0] for the periods, the printed zero threshold)
    under the record's own subject; every record of the batch, before or
    after it, yields the attachment of the values the decoder stored for
    that record's body (its colour from the decoded new state, its text
    the decoded reason, its six fields the decoded account, region,
    period, threshold, evaluation periods and comparison operator), the
    same as if any other record stood in the rejected one's place; and
    the handler returns [nil] having submitted all the attachments. *)
Theorem malformed_record_yields_default_attachment
        (pre post : list SNSEventRecord) (bad : SNSEventRecord) (e : GoError)
        (fuel : nat) (w : World) :
  let event := {| Records := pre ++ bad :: post |} in
  let slackAttachments := buildSlackAttachments event in
  Decode (Message (SNS bad)) CloudWatchAlarmEvent_zero
  = (CloudWatchAlarmEvent_zero, Some e) ->
  len slackAttachments + slackAttachmentsChunkSize init <= maxInt ->
  (chunkCount (List.length slackAttachments) < fuel)%nat ->
  List.length slackAttachments = List.length (pre ++ bad :: post)
  /\ nth_error slackAttachments (List.length pre)
     = Some {| Color := "good";
               Title := Subject (SNS bad);
               Text := "";
               Footer := Getenv "AWS_LAMBDA_FUNCTION_NAME";
               FooterIcon := footerIcon;
               Ts := Z.quot (UnixNano (List.length pre)) time_Second;
               AttachmentFields :=
                 [ {| FieldTitle := "AccountID"; FieldValue := ""; Short := true |};
                   {| FieldTitle := "Region"; FieldValue := ""; Short := true |};
                   {| FieldTitle := "Period"; FieldValue := "0"; Short := true |};
                   {| FieldTitle := "Threshold";
                      FieldValue := Sprintf_v_float32 float32_zero;
                      Short := true |};
                   {| FieldTitle := "Evaluated Periods"; FieldValue := "0";
                      Short := true |};
                   {| FieldTitle := "Comparison Operator"; FieldValue := "";
                      Short := true |} ] |}
  /\ (forall (j : nat) (r : SNSEventRecord) (decoded : CloudWatchAlarmEvent)
             (err : option GoError),
        nth_error (pre ++ bad :: post) j = Some r ->
        Decode (Message (SNS r)) CloudWatchAlarmEvent_zero = (decoded, err) ->
        nth_error slackAttachments j
        = Some {| Color := colorOf (NewStateValue decoded);
                  Title := Subject (SNS r);
                  Text := NewStateReason decoded;
                  Footer := Getenv "AWS_LAMBDA_FUNCTION_NAME";
                  FooterIcon := footerIcon;
                  Ts := Z.quot (UnixNano j) time_Second;
                  AttachmentFields :=
                    [ {| FieldTitle := "AccountID";
                         FieldValue := AWSAccountID decoded; Short := true |};
                      {| FieldTitle := "Region";
                         FieldValue := Region decoded; Short := true |};
                      {| FieldTitle := "Period";
                         FieldValue := Sprintf_v (Period (Trigger decoded));
                         Short := true |};
                      {| FieldTitle := "Threshold";
                         FieldValue := Sprintf_v_float32 (Threshold (Trigger decoded));
                         Short := true |};
                      {| FieldTitle := "Evaluated Periods";
                         FieldValue := Sprintf_v (EvaluationPeriods (Trigger decoded));
                         Short := true |};
                      {| FieldTitle := "Comparison Operator";
                         FieldValue := ComparisonOperator (Trigger decoded);
                         Short := true |} ] |})
  /\ (forall (other : SNSEventRecord) (j : nat),
        j <> List.length pre ->
        nth_error slackAttachments j
        = nth_error (buildSlackAttachments {| Records := pre ++ other :: post |}) j)
  /\ (exists w' : World,
        HandleRequest fuel init event w = (Returned None, w')
        /\ List.concat (map Attachments (submissions (trace w')))
           = List.concat (map Attachments (submissions (trace w)))
             ++ slackAttachments).
Proof.
  intros event atts Hdecode Hfit Hfuel.
  assert (Hnth : forall j, nth_error atts j
                 = option_map (slackAttachment j)
                              (nth_error (pre ++ bad :: post) j))
    by (intros j; apply (buildSlackAttachments_nth event)).
  split; [|split; [|split; [|split]]].
  - apply buildSlackAttachments_length.
  - rewrite Hnth, nth_error_middle. cbn [option_map]. f_equal.
    apply slackAttachment_undecoded.
    unfold decodeAlarm. now rewrite Hdecode.
  - intros j r decoded err Hr Hstored.
    rewrite Hnth, Hr. cbn [option_map]. f_equal.
    unfold slackAttachment, decodeAlarm. rewrite Hstored. reflexivity.
  - intros other j Hj. rewrite Hnth.
    unfold buildSlackAttachments. cbn [Records].
    rewrite rangeRecords_nth. cbn [Nat.add].
    now rewrite (nth_error_around pre post bad other j Hj).
  - destruct (HandleRequest_submissions fuel event w Hfit Hfuel)
      as (w' & Hrun & Hsub).
    exists w'. split; [exact Hrun|].
    rewrite Hsub, map_app, concat_app. f_equal.
    unfold chunkPayloads. rewrite map_map. apply concat_all_chunks.
Qed.

(** C6. Whatever the decoder stores or reports and whatever [Send]
    answers, call after call, the handler returns [nil]. *)
Theorem handler_returns_nil (event : SNSEvent) (fuel : nat) (w : World) :
  len (buildSlackAttachments event) + slackAttachmentsChunkSize init <= maxInt ->
  (chunkCount (List.length (buildSlackAttachments event)) < fuel)%nat ->
  fst (HandleRequest fuel init event w) = Returned None.
Proof.
  intros Hfit Hfuel.
  destruct (HandleRequest_submissions fuel event w Hfit Hfuel) as (w' & Hrun & _).
  now rewrite Hrun.
Qed.

(** C7. Every group is submitted, once and in order, whatever [Send]
    answers: the submissions of the invocation are the payloads of the
    [k] groups in order, each addressed to the monitor channel; and for a
    non-empty batch the trace is, group after group, the submission
    followed by its log line (the error when [Send] reported one, the
    response otherwise) and nothing else. *)
Theorem every_chunk_is_submitted (event : SNSEvent) (fuel : nat) (w : World) :
  let slackAttachments := buildSlackAttachments event in
  let k := chunkCount (List.length slackAttachments) in
  let payloads := chunkPayloads slackAttachments 0 k in
  len slackAttachments + slackAttachmentsChunkSize init <= maxInt ->
  (k < fuel)%nat ->
  exists w' : World,
    HandleRequest fuel init event w = (Returned None, w')
    /\ submissions (trace w') = submissions (trace w) ++ payloads
    /\ List.length payloads = k
    /\ (forall j : nat,
          (j < k)%nat ->
          nth_error payloads j
          = Some {| Channel := Getenv "SLACK_MONITOR_CHANNEL";
                    Attachments := firstn 100 (skipn (100 * j) slackAttachments) |})
    /\ (Records event <> [] ->
        trace w'
        = trace w
          ++ List.concat
               (map (fun pr => [SlackSend (fst pr);
                                match snd (snd pr) with
                                | Some err => ErrorPrintln err
                                | None => InfoPrintln (fst (snd pr))
                                end])
                    (combine payloads (answers (slackClient w) payloads)))).
Proof.
  intros atts k payloads Hfit Hfuel.
  destruct (HandleRequest_submissions fuel event w Hfit Hfuel) as (w' & Hrun & Hsub).
  exists w'. split; [exact Hrun|]. split; [exact Hsub|].
  split; [|split].
  - unfold payloads, chunkPayloads. now rewrite length_map, length_seq.
  - intros j Hj. unfold payloads, chunkPayloads.
    rewrite nth_error_map, nth_error_seq.
    destruct (Nat.ltb_spec j k) as [_|Hge]; [reflexivity | lia].
  - intros Hne.
    rewrite (HandleRequest_nonempty fuel event w Hne Hfit Hfuel) in Hrun.
    inversion Hrun; subst w'.
    unfold submitChunks. fold atts k payloads.
    apply submit_all_trace.
Qed.

Lemma sendChunks_outcome (slackAttachments : list Attachment) (fuel k : nat)
      (w : World) :
  len slackAttachments + slackAttachmentsChunkSize init <= maxInt ->
  (k <= chunkCount (List.length slackAttachments))%nat ->
  fst (sendChunks fuel init slackAttachments (Z.of_nat (100 * k)) w)
  = if (chunkCount (List.length slackAttachments) - k <? fuel)%nat
    then Returned tt else OutOfFuel.
Proof.
  intros Hfit Hk.
  destruct (Nat.ltb_spec (chunkCount (List.length slackAttachments) - k) fuel)
    as [Henough|Hshort].
  - now rewrite (sendChunks_run _ Hfit
                   (chunkCount (List.length slackAttachments) - k) k fuel w)
      by lia.
  - apply sendChunks_starved; [assumption | lia].
Qed.

(** C8. The slice expression of the chunk loop is always in bounds: at
    every index [i] the loop takes while its condition holds,
    [0 <= i < end <= len(slackAttachments)] and the slice is taken; so
    neither the loop, entered at such an index, nor the handler ever
    panics, whatever the fuel. *)
Theorem chunk_slice_in_bounds (event : SNSEvent) :
  let slackAttachments := buildSlackAttachments event in
  len slackAttachments + slackAttachmentsChunkSize init <= maxInt ->
  (forall i : Z,
      LoopIndex init slackAttachments i ->
      i < len slackAttachments ->
      0 <= i < chunkEnd init slackAttachments i
      /\ chunkEnd init slackAttachments i <= len slackAttachments
      /\ slice slackAttachments i (chunkEnd init slackAttachments i) <> None)
  /\ (forall (i : Z) (fuel : nat) (w : World),
        LoopIndex init slackAttachments i ->
        fst (sendChunks fuel init slackAttachments i w) <> Panic)
  /\ (forall (fuel : nat) (w : World),
        fst (HandleRequest fuel init event w) <> Panic).
Proof.
  intros atts Hfit. split; [|split].
  - intros i Hloop Hlt.
    destruct (LoopIndex_chunk atts Hfit i Hloop) as (k & -> & _).
    assert (Hin : (100 * k < List.length atts)%nat) by (unfold len in Hlt; lia).
    rewrite (slice_chunk atts Hfit k Hin), (chunkEnd_init atts Hfit k Hin).
    unfold len. repeat split; try lia. discriminate.
  - intros i fuel w Hloop.
    destruct (LoopIndex_chunk atts Hfit i Hloop) as (k & -> & Hk).
    rewrite (sendChunks_outcome atts fuel k w Hfit Hk).
    destruct (_ <? fuel)%nat; discriminate.
  - intros fuel w.
    destruct (Records event) as [|r rest] eqn:Hrec.
    + now rewrite HandleRequest_empty.
    + rewrite HandleRequest_loop by (rewrite Hrec; discriminate).
      pose proof (sendChunks_outcome atts fuel 0 w Hfit ltac:(lia)) as Hout.
      change (Z.of_nat (100 * 0)) with 0 in Hout. fold atts.
      destruct (sendChunks fuel init atts 0 w) as [[u| |] w'];
        cbn [fst] in *; try discriminate.
      destruct (_ <? fuel)%nat; discriminate.
Qed.

(** C9. The chunk loop terminates: with the chunk size [init] sets, the
    index strictly increases at every iteration, and the loop, entered at
    index [0], returns as soon as it is given more fuel than there are
    chunks; it makes exactly one iteration per chunk, so that much fuel
    is also needed. *)
Theorem chunk_loop_terminates (event : SNSEvent) (w : World) :
  let slackAttachments := buildSlackAttachments event in
  let k := chunkCount (List.length slackAttachments) in
  len slackAttachments + slackAttachmentsChunkSize init <= maxInt ->
  0 < slackAttachmentsChunkSize init
  /\ (forall i : Z,
        LoopIndex init slackAttachments i ->
        i < len slackAttachments ->
        i < add i (slackAttachmentsChunkSize init))
  /\ (forall fuel : nat,
        (k < fuel)%nat ->
        exists w' : World,
          sendChunks fuel init slackAttachments 0 w = (Returned tt, w'))
  /\ (forall fuel : nat,
        (fuel <= k)%nat ->
        fst (sendChunks fuel init slackAttachments 0 w) = OutOfFuel).
Proof.
  intros atts k Hfit. split; [reflexivity|]. split; [|split].
  - intros i Hloop Hlt.
    destruct (LoopIndex_chunk atts Hfit i Hloop) as (j & -> & _).
    assert (Hin : (100 * j < List.length atts)%nat) by (unfold len in Hlt; lia).
    rewrite (next_index atts Hfit j Hin). lia.
  - intros fuel Hfuel. eexists.
    change 0 with (Z.of_nat (100 * 0)).
    apply (sendChunks_run atts Hfit k 0%nat fuel w); [reflexivity | assumption].
  - intros fuel Hfuel.
    change 0 with (Z.of_nat (100 * 0)).
    apply (sendChunks_starved atts Hfit fuel 0%nat w). exact Hfuel.
Qed.

(** A chunk size of zero would keep the loop at index [0]: no amount of
    fuel lets it return on a non-empty slice. *)
Lemma zero_chunk_size_never_returns (channel : string) (a : Attachment)
      (rest : list Attachment) (fuel : nat) (w : World) :
  fst (sendChunks fuel
                  {| slackAttachmentsChunkSize := 0; slackMonitorChannel := channel |}
                  (a :: rest) 0 w)
  = OutOfFuel.
Proof.
  revert w. induction fuel as [|fuel IH]; intros w.
  - reflexivity.
  - cbn [sendChunks]. unfold len. cbn [List.length].
    destruct (Z.ltb_spec 0 (Z.of_nat (S (List.length rest)))) as [_|Hge]; [|lia].
    unfold chunkEnd, slice. cbn [slackAttachmentsChunkSize].
    change (add 0 0) with 0. unfold len. cbn [List.length].
    destruct (Z.gtb_spec 0 (Z.of_nat (S (List.length rest)))) as [Hgt|_]; [lia|].
    replace ((0 <=? 0) && (0 <=? 0) && (0 <=? Z.of_nat (S (List.length rest))))
      with true by (symmetry; rewrite !andb_true_iff, !Z.leb_le; lia).
    apply IH.
Qed.

(** C10. A record from which nothing was decoded, so that the alarm is
    the zero value and its new state the empty string, yields an
    attachment coloured [good], neither [danger] nor [warning], at the
    record's place in the batch. *)
Theorem undecoded_record_is_good (event : SNSEvent) (i : nat)
        (eventRecord : SNSEventRecord) :
  nth_error (Records event) i = Some eventRecord ->
  fst (Decode (Message (SNS eventRecord)) CloudWatchAlarmEvent_zero)
  = CloudWatchAlarmEvent_zero ->
  NewStateValue (decodeAlarm eventRecord) = ""
  /\ Color (slackAttachment i eventRecord) = "good"
  /\ Color (slackAttachment i eventRecord) <> "danger"
  /\ Color (slackAttachment i eventRecord) <> "warning"
  /\ option_map Color (nth_error (buildSlackAttachments event) i) = Some "good".
Proof.
  intros Hrec Hzero. fold (decodeAlarm eventRecord) in Hzero.
  rewrite buildSlackAttachments_nth, Hrec. cbn [option_map].
  rewrite (slackAttachment_undecoded i eventRecord Hzero), Hzero.
  cbn [Color NewStateValue CloudWatchAlarmEvent_zero].
  repeat split; discriminate.
Qed.

End HandlerFacts.

(** * Further properties of the handler *)

Section CoverageFacts.

Context {platform : Platform} {slack : SlackAPI}.

Lemma chunkCount_small (n : nat) :
  (0 < n <= 100)%nat -> chunkCount n = 1%nat.
Proof. pose proof (chunkCount_bounds n). lia. Qed.

Lemma chunkAt_whole (slackAttachments : list Attachment) :
  (List.length slackAttachments <= 100)%nat ->
  chunkAt slackAttachments 0 = slackAttachments.
Proof. intros Hle. unfold chunkAt. cbn [Nat.mul skipn]. now apply firstn_all2. Qed.

Lemma chunkPayloads_nth (slackAttachments : list Attachment) (j : nat) :
  (100 * j < List.length slackAttachments)%nat ->
  nth_error (chunkPayloads slackAttachments 0
                           (chunkCount (List.length slackAttachments))) j
  = Some (mkPayload init (chunkAt slackAttachments j)).
Proof.
  intros Hj. apply within_chunkCount in Hj.
  unfold chunkPayloads. rewrite nth_error_map, nth_error_seq.
  destruct (Nat.ltb_spec j (chunkCount (List.length slackAttachments)));
    [reflexivity | lia].
Qed.

(** X1. Where a record's alarm ends up: the attachment of the [p]-th
    record is the attachment number [p mod 100] of the submission number
    [p / 100] of the invocation, which is addressed to the monitor
    channel. *)
Theorem record_attachment_location (event : SNSEvent) (fuel : nat) (w : World)
        (p : nat) (eventRecord : SNSEventRecord) :
  len (buildSlackAttachments event) + slackAttachmentsChunkSize init <= maxInt ->
  (chunkCount (List.length (buildSlackAttachments event)) < fuel)%nat ->
  nth_error (Records event) p = Some eventRecord ->
  exists (w' : World) (sent : list Payload) (payload : Payload),
    HandleRequest fuel init event w = (Returned None, w')
    /\ submissions (trace w') = submissions (trace w) ++ sent
    /\ nth_error sent (p / 100) = Some payload
    /\ Channel payload = Getenv "SLACK_MONITOR_CHANNEL"
    /\ nth_error (Attachments payload) (p mod 100)
       = Some (slackAttachment p eventRecord).
Proof.
  intros Hfit Hfuel Hrec.
  destruct (HandleRequest_submissions fuel event w Hfit Hfuel) as (w' & Hrun & Hsub).
  set (atts := buildSlackAttachments event) in *.
  assert (Hp : (p < List.length atts)%nat).
  { unfold atts. rewrite buildSlackAttachments_length.
    apply nth_error_Some. now rewrite Hrec. }
  pose proof (Nat.div_mod_eq p 100) as Hdiv.
  pose proof (Nat.mod_upper_bound p 100 ltac:(discriminate)) as Hmod.
  exists w', (chunkPayloads atts 0 (chunkCount (List.length atts))),
         (mkPayload init (chunkAt atts (p / 100))).
  split; [exact Hrun|]. split; [exact Hsub|].
  split; [apply chunkPayloads_nth; lia|].
  split; [reflexivity|].
  cbn [mkPayload Attachments].
  rewrite chunkAt_nth by assumption.
  rewrite <- Hdiv. unfold atts.
  now rewrite buildSlackAttachments_nth, Hrec.
Qed.

(** X2. The warning is the alternative to a submission: an invocation
    either has an empty batch, writes [No Slack Sent] and submits
    nothing, or has a non-empty batch, writes no warning and submits at
    least one payload. *)
Theorem warns_exactly_when_nothing_is_sent (event : SNSEvent) (fuel : nat)
        (w : World) :
  len (buildSlackAttachments event) + slackAttachmentsChunkSize init <= maxInt ->
  (chunkCount (List.length (buildSlackAttachments event)) < fuel)%nat ->
  exists (w' : World) (sent : list Payload) (warned : list string),
    HandleRequest fuel init event w = (Returned None, w')
    /\ submissions (trace w') = submissions (trace w) ++ sent
    /\ warnings (trace w') = warnings (trace w) ++ warned
    /\ ((Records event = [] /\ sent = [] /\ warned = ["No Slack Sent"])
        \/ (Records event <> [] /\ sent <> [] /\ warned = [])).
Proof.
  intros Hfit Hfuel.
  destruct (Records event) as [|r rest] eqn:Hrec.
  - exists (emit (WarningPrintln "No Slack Sent") w), [], ["No Slack Sent"].
    split; [now apply HandleRequest_empty|].
    cbn [emit trace]. rewrite submissions_app, warnings_app.
    repeat split. left. repeat split.
  - assert (Hne : Records event <> []) by (rewrite Hrec; discriminate).
    set (atts := buildSlackAttachments event) in *.
    exists (submitChunks atts 0 (chunkCount (List.length atts)) w),
           (chunkPayloads atts 0 (chunkCount (List.length atts))), [].
    split; [now apply HandleRequest_nonempty|].
    unfold submitChunks.
    rewrite submit_all_submissions, submit_all_warnings, app_nil_r.
    repeat split. right. repeat split; [discriminate|].
    intros Hnil. apply (f_equal (@List.length Payload)) in Hnil.
    unfold chunkPayloads in Hnil. rewrite length_map, length_seq in Hnil.
    assert (Hpos : (0 < List.length atts)%nat).
    { unfold atts. rewrite buildSlackAttachments_length, Hrec. cbn. lia. }
    apply chunkCount_pos in Hpos. cbn [List.length] in Hnil. lia.
Qed.

(** X3. The common case: a batch of 1 to 100 records makes exactly one
    call to [Send], with all the attachments in one payload addressed to
    the monitor channel, writes the one log line of that call (the error
    when there is one, the response otherwise) and leaves the client in
    the state that call left it in. *)
Theorem small_batch_is_one_post (event : SNSEvent) (fuel : nat) (w : World) :
  let payload := {| Channel := Getenv "SLACK_MONITOR_CHANNEL";
                    Attachments := buildSlackAttachments event |} in
  (0 < List.length (Records event) <= 100)%nat ->
  (2 <= fuel)%nat ->
  HandleRequest fuel init event w
  = (Returned None,
     {| slackClient := snd (Send (slackClient w) payload);
        trace := trace w
                 ++ [SlackSend payload;
                     match snd (fst (Send (slackClient w) payload)) with
                     | Some err => ErrorPrintln err
                     | None => InfoPrintln (fst (fst (Send (slackClient w) payload)))
                     end] |}).
Proof.
  intros payload Hsize Hfuel.
  assert (Hlen : List.length (buildSlackAttachments event)
                 = List.length (Records event))
    by apply buildSlackAttachments_length.
  rewrite HandleRequest_nonempty.
  - rewrite Hlen, (chunkCount_small _ Hsize).
    unfold submitChunks, chunkPayloads. cbn [seq map fold_left].
    rewrite chunkAt_whole by lia.
    f_equal. apply submit_eq.
  - destruct (Records event); [cbn in Hsize; lia | discriminate].
  - unfold len, maxInt. rewrite Hlen. cbn [init slackAttachmentsChunkSize]. lia.
  - rewrite Hlen, (chunkCount_small _ Hsize). lia.
Qed.

(** ** Where the log lines go *)

Lemma writtenTo_app (f : File) (t1 t2 : list Effect) :
  writtenTo f (t1 ++ t2) = writtenTo f t1 ++ writtenTo f t2.
Proof. apply filter_app. Qed.

Lemma stderr_of_submissions (payloads : list Payload) (c : Client) :
  writtenTo Stderr
    (List.concat
       (map (fun pr => [SlackSend (fst pr); logLine (snd pr)])
            (combine payloads (answers c payloads))))
  = map ErrorPrintln (failures (answers c payloads)).
Proof.
  revert c. induction payloads as [|p ps IH]; intros c.
  - reflexivity.
  - cbn [answers combine map List.concat fst snd failures flat_map].
    change (flat_map _ (answers (snd (Send c p)) ps))
      with (failures (answers (snd (Send c p)) ps)).
    rewrite map_app, <- IH. unfold logLine.
    destruct (snd (fst (Send c p))); reflexivity.
Qed.

Lemma stdout_of_submissions (payloads : list Payload) (c : Client) :
  writtenTo Stdout
    (List.concat
       (map (fun pr => [SlackSend (fst pr); logLine (snd pr)])
            (combine payloads (answers c payloads))))
  = map InfoPrintln (successes (answers c payloads)).
Proof.
  revert c. induction payloads as [|p ps IH]; intros c.
  - reflexivity.
  - cbn [answers combine map List.concat fst snd successes flat_map].
    change (flat_map _ (answers (snd (Send c p)) ps))
      with (successes (answers (snd (Send c p)) ps)).
    rewrite map_app, <- IH. unfold logLine.
    destruct (snd (fst (Send c p))); reflexivity.
Qed.

Lemma failures_successes_length (results : list (Response * option GoError)) :
  (List.length (failures results) + List.length (successes results)
   = List.length results)%nat.
Proof.
  induction results as [|r rs IH].
  - reflexivity.
  - unfold failures, successes in *. cbn [flat_map].
    rewrite !length_app. destruct (snd r); cbn [List.length]; lia.
Qed.

(** X4. Standard error receives the failed submissions and nothing else:
    the lines an invocation writes through the [Error] logger, the only
    one [init] directs to [os.Stderr], are the errors [Send] returned, in
    the order of the calls; the responses of the calls that succeeded go
    to standard output through [Info]; and every call writes exactly one
    of the two. *)
Theorem stderr_receives_exactly_the_send_errors (event : SNSEvent) (fuel : nat)
        (w : World) :
  let slackAttachments := buildSlackAttachments event in
  let payloads :=
    chunkPayloads slackAttachments 0 (chunkCount (List.length slackAttachments)) in
  let results := answers (slackClient w) payloads in
  len slackAttachments + slackAttachmentsChunkSize init <= maxInt ->
  (chunkCount (List.length slackAttachments) < fuel)%nat ->
  exists w' : World,
    HandleRequest fuel init event w = (Returned None, w')
    /\ writtenTo Stderr (trace w')
       = writtenTo Stderr (trace w) ++ map ErrorPrintln (failures results)
    /\ (Records event <> [] ->
        writtenTo Stdout (trace w')
        = writtenTo Stdout (trace w) ++ map InfoPrintln (successes results))
    /\ (List.length (failures results) + List.length (successes results)
        = chunkCount (List.length slackAttachments))%nat.
Proof.
  intros atts payloads results Hfit Hfuel.
  assert (Hcount : (List.length (failures results) + List.length (successes results)
                    = chunkCount (List.length atts))%nat).
  { rewrite failures_successes_length. unfold results.
    rewrite answers_length. unfold payloads, chunkPayloads.
    now rewrite length_map, length_seq. }
  destruct (Records event) as [|r rest] eqn:Hrec.
  - exists (emit (WarningPrintln "No Slack Sent") w).
    split; [now apply HandleRequest_empty|].
    split; [|split; [intros Hne; now contradiction Hne | exact Hcount]].
    cbn [emit trace]. rewrite writtenTo_app.
    assert (Hnone : failures results = []).
    { destruct (failures results) as [|e es] eqn:Hf; [reflexivity|].
      exfalso. revert Hcount. unfold atts.
      rewrite buildSlackAttachments_length, Hrec. cbn. lia. }
    rewrite Hnone. reflexivity.
  - assert (Hne : Records event <> []) by (rewrite Hrec; discriminate).
    exists (submitChunks atts 0 (chunkCount (List.length atts)) w).
    split; [now apply HandleRequest_nonempty|].
    unfold submitChunks. fold payloads.
    rewrite submit_all_trace, !writtenTo_app.
    fold results. unfold results at 1 3.
    rewrite stderr_of_submissions, stdout_of_submissions.
    repeat split. exact Hcount.
Qed.

(** ** The attachments that are posted *)

Lemma In_firstn_skipn {A : Type} (n m : nat) (l : list A) (x : A) :
  In x (firstn n (skipn m l)) -> In x l.
Proof.
  intros Hin.
  rewrite <- (firstn_skipn m l). apply in_or_app. right.
  rewrite <- (firstn_skipn n (skipn m l)). apply in_or_app. now left.
Qed.

Lemma buildSlackAttachments_In (event : SNSEvent) (a : Attachment) :
  In a (buildSlackAttachments event) ->
  exists (i : nat) (eventRecord : SNSEventRecord),
    nth_error (Records event) i = Some eventRecord
    /\ a = slackAttachment i eventRecord.
Proof.
  intros Hin. apply In_nth_error in Hin as [i Hi].
  rewrite buildSlackAttachments_nth in Hi.
  destruct (nth_error (Records event) i) as [r|] eqn:Hr; [|discriminate].
  exists i, r. split; [exact Hr|]. now inversion Hi.
Qed.

Lemma colorOf_range (newStateValue : string) :
  colorOf newStateValue = "danger"
  \/ colorOf newStateValue = "warning"
  \/ colorOf newStateValue = "good".
Proof.
  unfold colorOf.
  destruct (String.eqb newStateValue "ALARM"); [now left|].
  destruct (String.eqb newStateValue "INSUFFICIENT_DATA"); [right; now left|].
  right. now right.
Qed.

(** X5. The shape of what is posted, whatever the decoder stored: every
    attachment of every payload the invocation submits is coloured
    [danger], [warning] or [good], carries the function name as footer
    with the fixed footer icon, and has the six fields [AccountID],
    [Region], [Period], [Threshold], [Evaluated Periods] and
    [Comparison Operator], in this order, each marked short. *)
Theorem posted_attachments_are_well_formed (event : SNSEvent) (fuel : nat)
        (w : World) :
  len (buildSlackAttachments event) + slackAttachmentsChunkSize init <= maxInt ->
  (chunkCount (List.length (buildSlackAttachments event)) < fuel)%nat ->
  exists (w' : World) (sent : list Payload),
    HandleRequest fuel init event w = (Returned None, w')
    /\ submissions (trace w') = submissions (trace w) ++ sent
    /\ forall (payload : Payload) (a : Attachment),
         In payload sent ->
         In a (Attachments payload) ->
         (Color a = "danger" \/ Color a = "warning" \/ Color a = "good")
         /\ Footer a = Getenv "AWS_LAMBDA_FUNCTION_NAME"
         /\ FooterIcon a = footerIcon
         /\ map FieldTitle (AttachmentFields a)
            = ["AccountID"; "Region"; "Period"; "Threshold";
               "Evaluated Periods"; "Comparison Operator"]
         /\ forallb Short (AttachmentFields a) = true.
Proof.
  intros Hfit Hfuel.
  destruct (HandleRequest_submissions fuel event w Hfit Hfuel) as (w' & Hrun & Hsub).
  eexists w', _. split; [exact Hrun|]. split; [exact Hsub|].
  intros payload a Hpayload Ha.
  unfold chunkPayloads in Hpayload.
  apply in_map_iff in Hpayload as (j & <- & _).
  cbn [mkPayload Attachments] in Ha. unfold chunkAt in Ha.
  apply In_firstn_skipn, buildSlackAttachments_In in Ha as (i & r & _ & ->).
  cbn [slackAttachment Color Footer FooterIcon AttachmentFields].
  split; [apply colorOf_range|]. repeat split.
Qed.

(** ** Timestamps *)

Lemma clock_monotone (i j : nat) :
  (forall k : nat, UnixNano k <= UnixNano (S k)) ->
  (i <= j)%nat -> UnixNano i <= UnixNano j.
Proof.
  intros Hstep Hij. induction Hij as [|j _ IH].
  - lia.
  - specialize (Hstep j). lia.
Qed.

(** X6. Timestamps. When the clock does not run backwards and is past the
    epoch, the timestamp of the attachment of the [i]-th record is the
    whole number of seconds of the [i]-th reading of the clock
    ([Ts * 10^9 <= UnixNano < (Ts + 1) * 10^9]), and the timestamps do
    not decrease along the batch. *)
Theorem timestamps_are_whole_seconds_in_order (event : SNSEvent) (i j : nat)
        (a b : Attachment) :
  (forall k : nat, UnixNano k <= UnixNano (S k)) ->
  0 <= UnixNano 0 ->
  (i <= j)%nat ->
  nth_error (buildSlackAttachments event) i = Some a ->
  nth_error (buildSlackAttachments event) j = Some b ->
  time_Second * Ts a <= UnixNano i < time_Second * (Ts a + 1)
  /\ 0 <= Ts a <= Ts b.
Proof.
  intros Hstep Hepoch Hij Ha Hb.
  rewrite buildSlackAttachments_nth in Ha, Hb.
  destruct (nth_error (Records event) i) as [ri|]; [|discriminate].
  destruct (nth_error (Records event) j) as [rj|]; [|discriminate].
  inversion Ha; inversion Hb; subst a b. cbn [slackAttachment Ts].
  assert (Hi : 0 <= UnixNano i)
    by (pose proof (clock_monotone 0 i Hstep ltac:(lia)); lia).
  assert (Hsec : 0 < time_Second) by reflexivity.
  pose proof (Z.quot_rem' (UnixNano i) time_Second) as Hqr.
  pose proof (Z.rem_bound_pos (UnixNano i) time_Second Hi Hsec) as Hrem.
  split; [lia|]. split.
  - apply Z.quot_pos; lia.
  - apply Z.quot_le_mono; [exact Hsec|].
    now apply clock_monotone.
Qed.

(** ** The chunk loop for any chunk size *)

Lemma chunkCountOf_bounds (c n : nat) :
  (0 < c)%nat -> (n <= c * chunkCountOf c n < n + c)%nat.
Proof.
  intros Hc. unfold chunkCountOf.
  pose proof (Nat.div_mod_eq (n + c - 1) c) as Hdiv.
  pose proof (Nat.mod_upper_bound (n + c - 1) c ltac:(lia)) as Hmod.
  lia.
Qed.

Lemma within_chunkCountOf (c n j : nat) :
  (0 < c)%nat -> (j < chunkCountOf c n)%nat <-> (c * j < n)%nat.
Proof.
  intros Hc. pose proof (chunkCountOf_bounds c n Hc) as Hb. split.
  - intros Hj.
    pose proof (Nat.mul_le_mono_l (S j) (chunkCountOf c n) c Hj) as Hmul.
    rewrite Nat.mul_succ_r in Hmul. lia.
  - intros Hj.
    destruct (Nat.lt_ge_cases j (chunkCountOf c n)) as [Hlt|Hge]; [exact Hlt|].
    pose proof (Nat.mul_le_mono_l _ _ c Hge). lia.
Qed.

Lemma concat_chunkOf (c : nat) (slackAttachments : list Attachment) (m k : nat) :
  List.concat (map (chunkOf c slackAttachments) (seq k m))
  = firstn (c * m) (skipn (c * k) slackAttachments).
Proof.
  revert k. induction m as [|m IH]; intros k.
  - now rewrite Nat.mul_0_r.
  - cbn [seq map List.concat]. rewrite IH.
    rewrite (Nat.mul_succ_r c m), (Nat.add_comm (c * m) c).
    rewrite firstn_plus, skipn_skipn.
    rewrite (Nat.mul_succ_r c k), (Nat.add_comm (c * k) c).
    reflexivity.
Qed.

Section AnyChunkSize.

Variable g : Globals.
Variable slackAttachments : list Attachment.

Hypothesis positive : 0 < slackAttachmentsChunkSize g.
Hypothesis fits : len slackAttachments + slackAttachmentsChunkSize g <= maxInt.

Let c : nat := Z.to_nat (slackAttachmentsChunkSize g).
Let N : nat := List.length slackAttachments.

Lemma chunk_size_of_nat : Z.of_nat c = slackAttachmentsChunkSize g.
Proof. unfold c. lia. Qed.

Lemma next_index_any (k : nat) :
  (c * k < N)%nat ->
  add (Z.of_nat (c * k)) (slackAttachmentsChunkSize g) = Z.of_nat (c * S k).
Proof.
  intros Hk. pose proof chunk_size_of_nat as Hc.
  rewrite Nat.mul_succ_r, Nat2Z.inj_add, Hc.
  apply add_no_overflow.
  unfold len, minInt, maxInt in *. fold N in fits.
  apply Nat2Z.inj_lt in Hk. lia.
Qed.

Lemma slice_chunk_any (k : nat) :
  (c * k < N)%nat ->
  slice slackAttachments (Z.of_nat (c * k))
        (chunkEnd g slackAttachments (Z.of_nat (c * k)))
  = Some (chunkOf c slackAttachments k).
Proof.
  intros Hk. unfold chunkEnd. rewrite (next_index_any k Hk).
  rewrite Nat.mul_succ_r. unfold len. fold N.
  assert (Hc : (0 < c)%nat) by (pose proof chunk_size_of_nat; lia).
  destruct (Z.gtb_spec (Z.of_nat (c * k + c)) (Z.of_nat N)) as [Hlast|Hfull];
    unfold slice, len; fold N.
  - replace ((0 <=? Z.of_nat (c * k)) && (Z.of_nat (c * k) <=? Z.of_nat N)
             && (Z.of_nat N <=? Z.of_nat N))
      with true by (symmetry; rewrite !andb_true_iff, !Z.leb_le; lia).
    f_equal. unfold chunkOf. rewrite Nat2Z.id.
    rewrite !firstn_all2; [reflexivity| |]; rewrite length_skipn; fold N; lia.
  - replace ((0 <=? Z.of_nat (c * k)) && (Z.of_nat (c * k) <=? Z.of_nat (c * k + c))
             && (Z.of_nat (c * k + c) <=? Z.of_nat N))
      with true by (symmetry; rewrite !andb_true_iff, !Z.leb_le; lia).
    f_equal. unfold chunkOf. rewrite Nat2Z.id. f_equal. lia.
Qed.

Lemma sendChunks_run_any (m k fuel : nat) (w : World) :
  (k + m = chunkCountOf c N)%nat ->
  (m < fuel)%nat ->
  sendChunks fuel g slackAttachments (Z.of_nat (c * k)) w
  = (Returned tt,
     fold_left submit
               (map (fun j => mkPayload g (chunkOf c slackAttachments j)) (seq k m))
               w).
Proof.
  assert (Hc : (0 < c)%nat) by (pose proof chunk_size_of_nat; lia).
  revert k fuel w. induction m as [|m IH]; intros k fuel w Hk Hfuel;
    (destruct fuel as [|fuel]; [lia|]).
  - assert (Hdone : ~ (c * k < N)%nat)
      by (rewrite <- (within_chunkCountOf c N k Hc); lia).
    cbn [sendChunks].
    destruct (Z.ltb_spec (Z.of_nat (c * k)) (len slackAttachments)) as [Hlt|_].
    + unfold len in Hlt. fold N in Hlt. lia.
    + reflexivity.
  - assert (Hin : (c * k < N)%nat)
      by (apply (within_chunkCountOf c N k Hc); lia).
    rewrite (sendChunks_step fuel g slackAttachments
                             (chunkOf c slackAttachments k)).
    + rewrite (next_index_any k Hin), (IH (S k) fuel) by lia. reflexivity.
    + unfold len. fold N. lia.
    + now apply slice_chunk_any.
Qed.

End AnyChunkSize.

(** X7. The chunk loop is right for every positive chunk size, not only
    for the 100 that [init] sets: with a chunk size [c > 0] (and index
    arithmetic that fits an [int]) the handler returns [nil] without a
    panic, having submitted [ceil(N / c)] groups; the [j]-th group is the
    run of at most [c] attachments from position [c * j], it is never
    empty, and the groups concatenated are the attachments. *)
Theorem any_positive_chunk_size_partitions (g : Globals) (event : SNSEvent)
        (fuel : nat) (w : World) :
  let slackAttachments := buildSlackAttachments event in
  let c := Z.to_nat (slackAttachmentsChunkSize g) in
  let N := List.length slackAttachments in
  0 < slackAttachmentsChunkSize g ->
  len slackAttachments + slackAttachmentsChunkSize g <= maxInt ->
  (chunkCountOf c N < fuel)%nat ->
  exists (w' : World) (groups : list (list Attachment)),
    HandleRequest fuel g event w = (Returned None, w')
    /\ submissions (trace w') = submissions (trace w) ++ map (mkPayload g) groups
    /\ (N <= c * List.length groups < N + c)%nat
    /\ (forall (j : nat) (group : list Attachment),
          nth_error groups j = Some group ->
          group = firstn c (skipn (c * j) slackAttachments)
          /\ (0 < List.length group <= c)%nat)
    /\ List.concat groups = slackAttachments.
Proof.
  intros atts c N Hpos Hfit Hfuel.
  assert (Hc : (0 < c)%nat) by (unfold c; lia).
  pose proof (chunkCountOf_bounds c N Hc) as Hbounds.
  exists (snd (HandleRequest fuel g event w)),
         (map (chunkOf c atts) (seq 0 (chunkCountOf c N))).
  assert (Hrun : HandleRequest fuel g event w
                 = (Returned None,
                    if (N =? 0)%nat
                    then emit (WarningPrintln "No Slack Sent") w
                    else fold_left submit
                           (map (fun j => mkPayload g (chunkOf c atts j))
                                (seq 0 (chunkCountOf c N))) w)).
  { destruct (Records event) as [|r rest] eqn:Hrec.
    - rewrite HandleRequest_empty by assumption.
      unfold N, atts. now rewrite buildSlackAttachments_length, Hrec.
    - rewrite HandleRequest_loop by (rewrite Hrec; discriminate).
      fold atts.
      pose proof (sendChunks_run_any g atts Hpos Hfit (chunkCountOf c N) 0 fuel w
                                     eq_refl Hfuel) as Hloop.
      rewrite Nat.mul_0_r in Hloop. change (Z.of_nat 0) with 0 in Hloop.
      rewrite Hloop.
      unfold N, atts. now rewrite buildSlackAttachments_length, Hrec. }
  rewrite Hrun. cbn [snd].
  split; [reflexivity|].
  split; [|split; [|split]].
  - destruct (Nat.eqb_spec N 0) as [Hz|_].
    + assert (Hq : chunkCountOf c N = 0%nat).
      { destruct (chunkCountOf c N) as [|q]; [reflexivity|].
        rewrite Nat.mul_succ_r in Hbounds. lia. }
      rewrite Hq. cbn [emit trace seq map].
      rewrite submissions_app. reflexivity.
    + now rewrite submit_all_submissions, map_map.
  - now rewrite length_map, length_seq.
  - intros j group Hgroup.
    rewrite nth_error_map, nth_error_seq in Hgroup.
    destruct (Nat.ltb_spec j (chunkCountOf c N)) as [Hj|_]; [|discriminate].
    inversion Hgroup; subst group. split; [reflexivity|].
    apply (within_chunkCountOf c N j Hc) in Hj.
    unfold chunkOf. rewrite length_firstn, length_skipn. fold N. lia.
  - rewrite concat_chunkOf. cbn [Nat.mul skipn].
    rewrite Nat.mul_0_r. cbn [skipn].
    apply firstn_all2. fold N. lia.
Qed.

Lemma sendChunks_zero_size (g : Globals) (slackAttachments : list Attachment)
      (fuel : nat) (w : World) :
  slackAttachmentsChunkSize g = 0 ->
  slackAttachments <> [] ->
  sendChunks fuel g slackAttachments 0 w
  = (OutOfFuel, fold_left submit (repeat (mkPayload g []) fuel) w).
Proof.
  intros Hzero Hne.
  assert (Hlen : 0 < len slackAttachments)
    by (destruct slackAttachments; [contradiction | unfold len; cbn; lia]).
  revert w. induction fuel as [|fuel IH]; intros w.
  - reflexivity.
  - rewrite (sendChunks_step fuel g slackAttachments []).
    + rewrite Hzero. change (add 0 0) with 0. rewrite IH. reflexivity.
    + exact Hlen.
    + unfold chunkEnd. rewrite Hzero. change (add 0 0) with 0.
      destruct (Z.gtb_spec 0 (len slackAttachments)) as [Hgt|_]; [lia|].
      unfold slice.
      replace ((0 <=? 0) && (0 <=? 0) && (0 <=? len slackAttachments))
        with true by (symmetry; rewrite !andb_true_iff, !Z.leb_le; lia).
      reflexivity.
Qed.

Lemma sendChunks_negative_size (g : Globals) (slackAttachments : list Attachment)
      (fuel : nat) (w : World) :
  minInt <= slackAttachmentsChunkSize g < 0 ->
  slackAttachments <> [] ->
  sendChunks (S fuel) g slackAttachments 0 w = (Panic, w).
Proof.
  intros Hneg Hne.
  assert (Hlen : 0 < len slackAttachments)
    by (destruct slackAttachments; [contradiction | unfold len; cbn; lia]).
  cbn [sendChunks].
  destruct (Z.ltb_spec 0 (len slackAttachments)) as [_|Hge]; [|lia].
  unfold chunkEnd.
  rewrite add_no_overflow by (unfold minInt, maxInt in *; lia).
  cbn [Z.add].
  destruct (Z.gtb_spec (slackAttachmentsChunkSize g) (len slackAttachments))
    as [Hgt|_]; [lia|].
  unfold slice.
  replace ((0 <=? 0) && (0 <=? slackAttachmentsChunkSize g)
           && (slackAttachmentsChunkSize g <=? len slackAttachments))
    with false; [reflexivity|].
  symmetry. apply andb_false_iff. left. apply andb_false_iff. right.
  apply Z.leb_gt. lia.
Qed.

(** X8. The chunk size has to be positive. On a non-empty batch, with a
    chunk size of [0] the loop stays at index [0] and submits the empty
    payload again at every iteration, so no amount of fuel lets the
    handler return; with a negative chunk size the first slice expression
    has its upper bound below its lower bound and the handler panics
    before it submits anything. *)
Theorem nonpositive_chunk_size_never_returns (g : Globals) (event : SNSEvent)
        (fuel : nat) (w : World) :
  Records event <> [] ->
  minInt <= slackAttachmentsChunkSize g <= 0 ->
  fst (HandleRequest fuel g event w) <> Returned None
  /\ (slackAttachmentsChunkSize g = 0 ->
      HandleRequest fuel g event w
      = (OutOfFuel, fold_left submit (repeat (mkPayload g []) fuel) w))
  /\ (slackAttachmentsChunkSize g < 0 ->
      (0 < fuel)%nat ->
      HandleRequest fuel g event w = (Panic, w)).
Proof.
  intros Hne Hsize.
  assert (Hatts : buildSlackAttachments event <> []).
  { intros Hnil. apply (f_equal (@List.length Attachment)) in Hnil.
    rewrite buildSlackAttachments_length in Hnil.
    destruct (Records event); [contradiction | discriminate]. }
  rewrite (HandleRequest_loop fuel g event w Hne).
  assert (Hzero : slackAttachmentsChunkSize g = 0 ->
                  sendChunks fuel g (buildSlackAttachments event) 0 w
                  = (OutOfFuel, fold_left submit (repeat (mkPayload g []) fuel) w))
    by (intros Hz; now apply sendChunks_zero_size).
  assert (Hneg : slackAttachmentsChunkSize g < 0 -> (0 < fuel)%nat ->
                 sendChunks fuel g (buildSlackAttachments event) 0 w = (Panic, w)).
  { intros Hlt Hfuel. destruct fuel as [|fuel]; [lia|].
    apply sendChunks_negative_size; [lia | assumption]. }
  split; [|split].
  - destruct (Z.eq_dec (slackAttachmentsChunkSize g) 0) as [Hz|Hnz].
    + rewrite (Hzero Hz). discriminate.
    + destruct fuel as [|fuel]; [cbn; discriminate|].
      rewrite Hneg by lia. discriminate.
  - intros Hz. now rewrite (Hzero Hz).
  - intros Hlt Hfuel. now rewrite (Hneg Hlt Hfuel).
Qed.

End CoverageFacts.

(** * The scenarios of the specification, on the test doubles *)

Import Demo.

(** 150 records in state [ALARM]: two groups are submitted. *)
Lemma chunks_partition_attachments_witness :
  exists (w' : World) (groups : list (list Attachment)),
    HandleRequest 3 init (alarms 150) world0 = (Returned None, w')
    /\ map Attachments (submissions (trace w')) = groups
    /\ List.length groups = 2%nat
    /\ List.concat groups = buildSlackAttachments (alarms 150).
Proof.
  destruct (chunks_partition_attachments (alarms 150) 3 world0)
    as (w' & groups & Hrun & Hsub & Hlen & _ & _ & Hconcat).
  - vm_compute. discriminate.
  - vm_compute. lia.
  - exists w', groups. repeat split.
    + exact Hrun.
    + exact Hsub.
    + rewrite Hlen. vm_compute. reflexivity.
    + exact Hconcat.
Defined.

(** With the stream decoder: a body that holds no JSON value, between a
    well-formed record and, after it, a record whose well-formed body is
    followed by junk and a well-formed record. *)
Lemma malformed_record_yields_default_attachment_witness :
  let slackAttachments :=
    @buildSlackAttachments Stream.platform
      {| Records := [record "cpu" "ALARM"; malformed; Stream.junkRecord;
                     record "disk" "INSUFFICIENT_DATA"] |} in
  option_map Color (nth_error slackAttachments 0) = Some "danger"
  /\ option_map Color (nth_error slackAttachments 1) = Some "good"
  /\ option_map Color (nth_error slackAttachments 2) = Some "danger"
  /\ option_map Color (nth_error slackAttachments 3) = Some "warning".
Proof.
  destruct (@malformed_record_yields_default_attachment
              Stream.platform Demo.slack
              [record "cpu" "ALARM"]
              [Stream.junkRecord; record "disk" "INSUFFICIENT_DATA"] malformed
              "invalid character looking for beginning of value" 2 world0)
    as (_ & Hbad & Hstored & _).
  - reflexivity.
  - vm_compute. discriminate.
  - vm_compute. lia.
  - intros slackAttachments. split; [|split; [|split]].
    + exact (f_equal (option_map Color)
                     (Hstored 0%nat (record "cpu" "ALARM")
                              (withNewStateValue "ALARM" CloudWatchAlarmEvent_zero)
                              None eq_refl eq_refl)).
    + exact (f_equal (option_map Color) Hbad).
    + exact (f_equal (option_map Color)
                     (Hstored 2%nat Stream.junkRecord
                              (withNewStateValue "ALARM" CloudWatchAlarmEvent_zero)
                              None eq_refl eq_refl)).
    + exact (f_equal (option_map Color)
                     (Hstored 3%nat (record "disk" "INSUFFICIENT_DATA")
                              (withNewStateValue "INSUFFICIENT_DATA"
                                                 CloudWatchAlarmEvent_zero)
                              None eq_refl eq_refl)).
Defined.

(** C5, as first stated, fails. The body of [Stream.junkRecord] is not
    valid JSON, yet the stream decoder reads its first value, reports no
    error and stores the state [ALARM]: the record's attachment is
    coloured [danger] and is not the attachment of the zero values. So it
    is not true that every record whose body is not valid JSON yields the
    default attachment. *)
Lemma invalid_body_with_valid_first_value_is_decoded :
  JSON.Valid (Demo.body "ALARM") = true
  /\ JSON.Valid Stream.junkBody = false
  /\ @Decode Stream.platform Stream.junkBody CloudWatchAlarmEvent_zero
     = (withNewStateValue "ALARM" CloudWatchAlarmEvent_zero, None)
  /\ map Color (@buildSlackAttachments Stream.platform
                  {| Records := [Stream.junkRecord] |})
     = ["danger"]
  /\ ~ (forall eventRecord : SNSEventRecord,
          JSON.Valid (Message (SNS eventRecord)) = false ->
          Color (@slackAttachment Stream.platform 0 eventRecord) = "good"
          /\ NewStateValue (@decodeAlarm Stream.platform eventRecord) = "").
Proof.
  split; [reflexivity|]. split; [reflexivity|].
  split; [reflexivity|]. split; [reflexivity|].
  intros Hclaim.
  destruct (Hclaim Stream.junkRecord eq_refl) as [Hgood _].
  discriminate Hgood.
Defined.

(** The first submission fails, the handler still returns [nil]. *)
Lemma handler_returns_nil_witness :
  fst (HandleRequest 3 init (alarms 150) world0) = Returned None.
Proof.
  apply (handler_returns_nil (alarms 150) 3 world0).
  - vm_compute. discriminate.
  - vm_compute. lia.
Defined.

(** Group 1 of 2 fails: its error is logged and group 2 is submitted. *)
Lemma every_chunk_is_submitted_witness :
  exists w' : World,
    HandleRequest 3 init (alarms 150) world0 = (Returned None, w')
    /\ trace w'
       = [ SlackSend (mkPayload init (chunkAt (buildSlackAttachments (alarms 150)) 0));
           ErrorPrintln "slack: 500 Internal Server Error";
           SlackSend (mkPayload init (chunkAt (buildSlackAttachments (alarms 150)) 1));
           InfoPrintln "ok" ].
Proof.
  destruct (every_chunk_is_submitted (alarms 150) 3 world0)
    as (w' & Hrun & _ & _ & _ & Htrace).
  - vm_compute. discriminate.
  - vm_compute. lia.
  - exists w'. split; [exact Hrun|].
    rewrite Htrace by discriminate. vm_compute. reflexivity.
Defined.

(** With fuel for one iteration only, the run stops short of its end and
    still does not panic. *)
Lemma chunk_slice_in_bounds_witness :
  fst (HandleRequest 1 init (alarms 150) world0) <> Panic.
Proof.
  destruct (chunk_slice_in_bounds (alarms 150)) as (_ & _ & Hsafe).
  - vm_compute. discriminate.
  - apply Hsafe.
Defined.

(** Two chunks: three units of fuel let the loop return. *)
Lemma chunk_loop_terminates_witness :
  exists w' : World,
    sendChunks 3 init (buildSlackAttachments (alarms 150)) 0 world0
    = (Returned tt, w').
Proof.
  destruct (chunk_loop_terminates (alarms 150) world0) as (_ & _ & Hrun & _).
  - vm_compute. discriminate.
  - apply Hrun. vm_compute. lia.
Defined.

(** The record whose body is not JSON is shown as [good]. *)
Lemma undecoded_record_is_good_witness :
  Color (slackAttachment 1 malformed) = "good".
Proof.
  destruct (undecoded_record_is_good
              {| Records := [record "cpu" "ALARM"; malformed] |} 1 malformed)
    as (_ & Hgood & _).
  - reflexivity.
  - reflexivity.
  - exact Hgood.
Defined.

(** 150 well-formed records in state [ALARM]: two groups, of 100 and of
    50 attachments, every attachment coloured [danger]. *)
Example scenario_150_alarms :
  let w' := snd (HandleRequest 3 init (alarms 150) world0) in
  map (fun p => List.length (Attachments p)) (submissions (trace w'))
  = [100; 50]%nat
  /\ forallb (fun a => String.eqb (Color a) "danger")
             (List.concat (map Attachments (submissions (trace w'))))
     = true.
Proof. vm_compute. split; reflexivity. Qed.

(** One record in state [OK]: one group of one attachment, coloured
    [good]. *)
Example scenario_one_ok :
  map (fun p => map Color (Attachments p))
      (submissions
         (trace (snd (HandleRequest 2 init {| Records := [record "cpu" "OK"] |}
                                    world0))))
  = [["good"]].
Proof. vm_compute. reflexivity. Qed.

(** * Runs of the further properties, on the test doubles *)

(** Record 120 of 150: attachment 20 of the second submission. *)
Lemma record_attachment_location_witness :
  exists (w' : World) (sent : list Payload) (payload : Payload),
    HandleRequest 3 init (alarms 150) world0 = (Returned None, w')
    /\ submissions (trace w') = sent
    /\ nth_error sent 1 = Some payload
    /\ nth_error (Attachments payload) 20
       = Some (slackAttachment 120 (record "cpu" "ALARM")).
Proof.
  destruct (record_attachment_location (alarms 150) 3 world0 120
                                       (record "cpu" "ALARM"))
    as (w' & sent & payload & Hrun & Hsub & Hsent & _ & Hatt).
  - vm_compute. discriminate.
  - vm_compute. lia.
  - reflexivity.
  - exists w', sent, payload. repeat split; assumption.
Defined.

(** A non-empty batch writes no warning. *)
Lemma warns_exactly_when_nothing_is_sent_witness :
  exists w' : World,
    HandleRequest 3 init (alarms 150) world0 = (Returned None, w')
    /\ warnings (trace w') = [].
Proof.
  destruct (warns_exactly_when_nothing_is_sent (alarms 150) 3 world0)
    as (w' & sent & warned & Hrun & _ & Hwarn & [(Hnil & _)|(_ & _ & Hnone)]).
  - vm_compute. discriminate.
  - vm_compute. lia.
  - discriminate Hnil.
  - exists w'. split; [exact Hrun|]. rewrite Hwarn, Hnone. reflexivity.
Defined.

(** One record in state [OK]: one post. *)
Lemma small_batch_is_one_post_witness :
  submissions
    (trace (snd (HandleRequest 2 init {| Records := [record "cpu" "OK"] |} world0)))
  = [ {| Channel := "#alarms";
         Attachments := [slackAttachment 0 (record "cpu" "OK")] |} ].
Proof.
  rewrite (small_batch_is_one_post {| Records := [record "cpu" "OK"] |} 2 world0).
  - reflexivity.
  - cbn. lia.
  - lia.
Defined.

(** Of two submissions the first fails: one line on standard error. *)
Lemma stderr_receives_exactly_the_send_errors_witness :
  exists w' : World,
    HandleRequest 3 init (alarms 150) world0 = (Returned None, w')
    /\ writtenTo Stderr (trace w')
       = [ErrorPrintln "slack: 500 Internal Server Error"].
Proof.
  destruct (stderr_receives_exactly_the_send_errors (alarms 150) 3 world0)
    as (w' & Hrun & Herr & _).
  - vm_compute. discriminate.
  - vm_compute. lia.
  - exists w'. split; [exact Hrun|]. rewrite Herr. vm_compute. reflexivity.
Defined.

Lemma posted_attachments_are_well_formed_witness :
  exists (w' : World) (sent : list Payload),
    HandleRequest 2 init
                  {| Records := [record "cpu" "ALARM"; malformed] |} world0
    = (Returned None, w')
    /\ submissions (trace w') = sent.
Proof.
  destruct (posted_attachments_are_well_formed
              {| Records := [record "cpu" "ALARM"; malformed] |} 2 world0)
    as (w' & sent & Hrun & Hsub & _).
  - vm_compute. discriminate.
  - vm_compute. lia.
  - exists w', sent. split; assumption.
Defined.

(** The clock of the test double advances by one second per reading. *)
Lemma timestamps_are_whole_seconds_in_order_witness :
  Ts (slackAttachment 0 (record "cpu" "ALARM")) = 1540000000
  /\ Ts (slackAttachment 0 (record "cpu" "ALARM"))
     <= Ts (slackAttachment 2 (record "cpu" "ALARM")).
Proof.
  destruct (timestamps_are_whole_seconds_in_order
              (alarms 3) 0 2
              (slackAttachment 0 (record "cpu" "ALARM"))
              (slackAttachment 2 (record "cpu" "ALARM")))
    as (_ & _ & Hle).
  - intros k. cbn [UnixNano platform]. unfold time_Second. lia.
  - vm_compute. discriminate.
  - lia.
  - reflexivity.
  - reflexivity.
  - split; [reflexivity | exact Hle].
Defined.

(** Five attachments in chunks of two: three submissions. *)
Lemma any_positive_chunk_size_partitions_witness :
  exists (w' : World) (groups : list (list Attachment)),
    HandleRequest 4 {| slackAttachmentsChunkSize := 2;
                       slackMonitorChannel := "#alarms" |}
                  (alarms 5) world0
    = (Returned None, w')
    /\ List.concat groups = buildSlackAttachments (alarms 5).
Proof.
  destruct (any_positive_chunk_size_partitions
              {| slackAttachmentsChunkSize := 2;
                 slackMonitorChannel := "#alarms" |}
              (alarms 5) 4 world0)
    as (w' & groups & Hrun & _ & _ & _ & Hconcat).
  - reflexivity.
  - vm_compute. discriminate.
  - vm_compute. lia.
  - exists w', groups. split; assumption.
Defined.

(** A chunk size of zero, one record, three units of fuel. *)
Lemma nonpositive_chunk_size_never_returns_witness :
  fst (HandleRequest 3 {| slackAttachmentsChunkSize := 0;
                          slackMonitorChannel := "#alarms" |}
                     (alarms 1) world0)
  <> Returned None.
Proof.
  destruct (nonpositive_chunk_size_never_returns
              {| slackAttachmentsChunkSize := 0;
                 slackMonitorChannel := "#alarms" |}
              (alarms 1) 3 world0)
    as (Hnever & _).
  - discriminate.
  - vm_compute. split; discriminate.
  - exact Hnever.
Defined.
